(** * RelayToGraphFromSMTP: the SMTP session machine, the content
      transformer and the delivery client of [main.go]

    A shallow embedding of the relay's core ([main.go], first revision in the
    file) and the properties of its specification that were checked on it.

    Conventions of the embedding.
    - A Go [string] is a sequence of bytes: Rocq's [string] of 8-bit [ascii].
    - A Go map is a stdpp [gmap].  The store maps keys to
      [*EmailTransaction]; a row is only ever reachable under one key once a
      method returns (the re-keying in [Data] inserts and deletes under the
      lock), so rows are held by value and a write through the pointer is an
      update of the map at the key the pointer was read from.  A nil pointer
      is [None].
    - [time.Now()] is an input of every method that calls it, in nanoseconds
      as [Z]; [time.Duration] is [Z] nanoseconds as well.
    - The MIME library (go-message) and the HTTP exchange with the vendor API
      are not code of this repository: the two parsers are variables of
      [Section Relay] and the outcome of the n-th HTTP exchange is an oracle.
    - [strings.EqualFold] and [strings.ToLower] fold Unicode with the tables
      of Go's library: the code is embedded over any pair of such functions
      ([Class Folding]), and a statement that needs a law of them says so.
      On concrete ASCII input they are evaluated with their restriction to
      ASCII strings.
    - Logging is left out; it writes to a file and nothing reads it back. *)

From Stdlib Require Import ZArith Ascii String DecimalString.
From Stdlib Require DecimalZ.
From stdpp Require Import base option list gmap strings fin_maps.

Local Open Scope string_scope.
Local Open Scope list_scope.

(** ** Go's [strings] and [encoding/base64], on byte strings *)

Module GoStrings.

(** The lower case of an ASCII letter; any other byte is kept. *)
Definition lower_ascii (c : ascii) : ascii :=
  let n := nat_of_ascii c in
  if (65 <=? n)%nat && (n <=? 90)%nat then ascii_of_nat (n + 32) else c.

(** What [strings.ToLower] returns on a string of ASCII bytes (every byte
    below 128).  On other strings Go lowers Unicode runes and this function
    does not: it stands for [strings.ToLower] on ASCII input only. *)
Fixpoint ToLower_ascii (s : string) : string :=
  match s with
  | EmptyString => EmptyString
  | String c s' => String (lower_ascii c) (ToLower_ascii s')
  end.

(** What [strings.EqualFold] returns on two strings of ASCII bytes: equality
    up to the case of the letters A to Z.  It stands for [strings.EqualFold]
    on ASCII input only. *)
Fixpoint EqualFold_ascii (s t : string) : bool :=
  match s, t with
  | EmptyString, EmptyString => true
  | String a s', String b t' =>
      Ascii.eqb (lower_ascii a) (lower_ascii b) && EqualFold_ascii s' t'
  | _, _ => false
  end.

(** [strings.HasPrefix s p] *)
Fixpoint HasPrefix (s p : string) : bool :=
  match p, s with
  | EmptyString, _ => true
  | String b p', String a s' => Ascii.eqb a b && HasPrefix s' p'
  | String _ _, EmptyString => false
  end.

(** [strings.Contains s substr] *)
Fixpoint Contains (s substr : string) : bool :=
  HasPrefix s substr ||
  match s with
  | EmptyString => false
  | String _ s' => Contains s' substr
  end.

(** The scan of [strings.ReplaceAll] for a non-empty [old]: matches are
    found left to right and do not overlap; [skip] counts the bytes of the
    match being stepped over. *)
Fixpoint replace_from (skip : nat) (s old new : string) : string :=
  match s with
  | EmptyString => EmptyString
  | String c s' =>
      match skip with
      | S k => replace_from k s' old new
      | O =>
          if HasPrefix s old
          then new +:+ replace_from (String.length old - 1) s' old new
          else String c (replace_from 0 s' old new)
      end
  end.

(** [new] before every byte and at the end: what [strings.ReplaceAll] does
    for an empty [old] (on ASCII text, where every byte is a rune). *)
Fixpoint intersperse_all (s new : string) : string :=
  match s with
  | EmptyString => new
  | String c s' => new +:+ String c (intersperse_all s' new)
  end.

(** [strings.ReplaceAll s old new] *)
Definition ReplaceAll (s old new : string) : string :=
  match old with
  | EmptyString => intersperse_all s new
  | String _ _ => replace_from 0 s old new
  end.

Fixpoint in_cutset (c : ascii) (cutset : string) : bool :=
  match cutset with
  | EmptyString => false
  | String d cs => Ascii.eqb c d || in_cutset c cs
  end.

(** [strings.TrimLeft] *)
Fixpoint TrimLeft (s cutset : string) : string :=
  match s with
  | EmptyString => EmptyString
  | String c s' => if in_cutset c cutset then TrimLeft s' cutset else s
  end.

(** [strings.TrimRight] *)
Fixpoint TrimRight (s cutset : string) : string :=
  match s with
  | EmptyString => EmptyString
  | String c s' =>
      match TrimRight s' cutset with
      | EmptyString => if in_cutset c cutset then EmptyString else String c EmptyString
      | r => String c r
      end
  end.

(** [strings.Trim s cutset] *)
Definition Trim (s cutset : string) : string :=
  TrimRight (TrimLeft s cutset) cutset.

(** [fmt.Sprintf("%d", n)] *)
Definition format_int (n : Z) : string :=
  NilZero.string_of_int (Z.to_int n).

(** The alphabet of [base64.StdEncoding]. *)
Definition encodeStd : string :=
  "ABCDEFGHIJKLMNOPQRSTUVWXYZabcdefghijklmnopqrstuvwxyz0123456789+/".

Definition sextet (n : nat) : ascii :=
  match String.get (n mod 64) encodeStd with
  | Some c => c
  | None => "="%char
  end.

(** [base64.StdEncoding.EncodeToString]: three bytes give four characters,
    the last group is padded with [=]. *)
Fixpoint EncodeToString (src : string) : string :=
  match src with
  | EmptyString => EmptyString
  | String a EmptyString =>
      let x := nat_of_ascii a in
      String (sextet (x / 4)) (String (sextet (x mod 4 * 16)) "==")
  | String a (String b EmptyString) =>
      let x := nat_of_ascii a in
      let y := nat_of_ascii b in
      String (sextet (x / 4))
        (String (sextet (x mod 4 * 16 + y / 16))
           (String (sextet (y mod 16 * 4)) "="))
  | String a (String b (String c rest)) =>
      let x := nat_of_ascii a in
      let y := nat_of_ascii b in
      let z := nat_of_ascii c in
      String (sextet (x / 4))
        (String (sextet (x mod 4 * 16 + y / 16))
           (String (sextet (y mod 16 * 4 + z / 64))
              (String (sextet (z mod 64)) (EncodeToString rest))))
  end.

End GoStrings.

Import GoStrings.

(** [strings.EqualFold] and [strings.ToLower] of Go's library, which fold
    Unicode with tables that are not part of the repository.  The code below
    is written over any pair of such functions. *)
Class Folding : Type := {
  EqualFold : string -> string -> bool;
  ToLower : string -> string
}.

(** ** Data model *)

(** What a Go call can do: return nil, return an error, or panic. *)
Inductive outcome : Type :=
| Nil
| Err (msg : string)
| Panic (msg : string).

(** A value or an error, for the [(T, error)] results of the libraries. *)
Inductive result (A : Type) : Type :=
| Val (a : A)
| Fail (msg : string).
Arguments Val {A} a.
Arguments Fail {A} msg.

(** [type EmailTransaction struct]; a [bytes.Buffer] is the bytes it holds. *)
Record EmailTransaction : Type := mkTrans {
  from : string;
  to : list string;
  cc : list string;
  bcc : list string;
  dataBuffers : list string
}.

(** [&EmailTransaction{from: from}] *)
Definition newTransaction (f : string) : EmailTransaction :=
  mkTrans f [] [] [] [].

(** [func (e *EmailTransaction) addRecipient(rcpt string)] *)
Definition addRecipient `{Folding} (e : EmailTransaction) (rcpt : string) : EmailTransaction :=
  if existsb (fun r => EqualFold r rcpt) (to e)
  then e
  else mkTrans (from e) (to e ++ [rcpt]) (cc e) (bcc e) (dataBuffers e).

(** [func (e *EmailTransaction) appendData(content []byte)] *)
Definition appendData (e : EmailTransaction) (content : string) : EmailTransaction :=
  mkTrans (from e) (to e) (cc e) (bcc e) (dataBuffers e ++ [content]).

(** [func (e *EmailTransaction) resetDataBuffers()] *)
Definition resetDataBuffers (e : EmailTransaction) : EmailTransaction :=
  mkTrans (from e) (to e) (cc e) (bcc e) [].

(** [func (e *EmailTransaction) resetAll()] *)
Definition resetAll (e : EmailTransaction) : EmailTransaction :=
  resetDataBuffers (mkTrans EmptyString [] (cc e) (bcc e) (dataBuffers e)).

(** [type TransactionManager struct], without its mutex: every method below
    runs its edit of the store under [globalManager.mu], so one call is one
    atomic step on this record. *)
Record TransactionManager : Type := mkTM {
  transactions : gmap string EmailTransaction;
  timeouts : gmap string Z
}.

(** [NewTransactionManager] *)
Definition NewTransactionManager : TransactionManager := mkTM ∅ ∅.

Definition time_Second : Z := 1000000000.
Definition time_Minute : Z := 60 * time_Second.

(** One wake-up of [func (tm *TransactionManager) cleanup()] at time [now]:
    every key whose timestamp is more than five minutes old is deleted from
    both maps. *)
Definition cleanup (tm : TransactionManager) (now : Z) : TransactionManager :=
  let stale := filter (fun kt => 5 * time_Minute <? now - kt.2)%Z (map_to_list (timeouts tm)) in
  foldr (fun kt m => mkTM (delete kt.1 (transactions m)) (delete kt.1 (timeouts m)))
        tm stale.

(** [type Session struct], without its mutex. *)
Record Session : Type := mkSession {
  sessionID : string;
  currentKey : string;
  activeEmail : string;
  pendingKeys : list string
}.

(** [func (bkd *Backend) NewSession]: [id] is the fresh UUID. *)
Definition NewSession (id : string) : Session :=
  mkSession id EmptyString EmptyString [].

Definition is_empty (s : string) : bool :=
  match s with EmptyString => true | String _ _ => false end.

(** The headers [Data] reads from [message.Read]'s entity:
    [Header.Get("Subject")] and the address lists of From and To, each
    [None] when [AddressList] returns an error. *)
Record Entity : Type := mkEntity {
  eSubject : string;
  eFrom : option (list string);
  eTo : option (list string)
}.

(** A MIME part as [processEmail] looks at it: the dynamic type of its
    header, the media type of [ContentType()], the raw Content-ID header and
    the bytes of [io.ReadAll(part.Body)].  The charset parameter is only
    logged. *)
Inductive Part : Type :=
| InlinePart (contentType contentID body : string)
| AttachmentPart (filename contentType body : string).

(** What [processEmail] reads from [mail.CreateReader]'s reader:
    [Header.Subject()], the address lists of To and Cc ([None] on error) and
    the successive results of [NextPart()] up to [io.EOF]. *)
Record Reader : Type := mkReader {
  rSubject : string;
  rTo : option (list string);
  rCc : option (list string);
  rParts : list (result Part)
}.

(** The entries of the Graph attachment array. *)
Record Attachment : Type := mkAttachment {
  odata_type : string;
  name : string;
  attContentType : string;
  contentBytes : string
}.

(** [{"emailAddress": {"address": addr}}] *)
Record Recipient : Type := mkRecipient { address : string }.

(** The payload of [buildGraphMessage]. *)
Record GraphMessage : Type := mkGraphMessage {
  subject : string;
  bodyContentType : string;
  bodyContent : string;
  toRecipients : list Recipient;
  ccRecipients : list Recipient;
  bccRecipients : list Recipient;
  attachments : list Attachment;
  saveToSentItems : bool
}.

(** What the delivery client does to the outside: the number of calls of
    [doSendMail] so far, the durations passed to [time.Sleep] and the
    requests built for the send endpoint (URL and payload), oldest first. *)
Record World : Type := mkWorld {
  calls : nat;
  sleeps : list Z;
  posts : list (string * GraphMessage)
}.

Definition World0 : World := mkWorld 0 [] [].

(** The input of [Data]: what [io.Copy] gets out of the reader. *)
Inductive Stream : Type :=
| ReadAll (bytes : string)
| ReadError (msg : string).

(** ** The session machine, the content transformer and the delivery client *)

Section Relay.

Context {fold_fns : Folding}.

(** [message.Read] and [mail.CreateReader] of go-message, on the raw bytes. *)
Variable message_Read : string -> result Entity.
Variable mail_CreateReader : string -> result Reader.

(** The identity endpoint and the send endpoint at the n-th call of
    [doSendMail]: the token or a transport or decoding error, and the status
    code and body of the response or the error of [http.NewRequest] or
    [client.Do]. *)
Variable token_endpoint : nat -> result string.
Variable send_endpoint : nat -> string -> string -> GraphMessage -> result (Z * string).

(** *** Session methods *)

(** [func (s *Session) Mail(from string, _ *smtp.MailOptions) error];
    [transactionTime] is [time.Now().UnixNano()] and [now] the second
    [time.Now()]. *)
Definition Mail (s : Session) (tm : TransactionManager) (f : string)
    (transactionTime now : Z) : outcome * Session * TransactionManager :=
  let key := sessionID s +:+ ":" +:+ f +:+ ":" +:+ format_int transactionTime in
  let s' := mkSession (sessionID s) key f (pendingKeys s) in
  let trans := newTransaction f in
  (Nil, s', mkTM (<[key := trans]> (transactions tm)) (<[key := now]> (timeouts tm))).

(** [func (s *Session) Rcpt(to string, _ *smtp.RcptOptions) error] *)
Definition Rcpt (s : Session) (tm : TransactionManager) (rcpt : string)
    (now : Z) : outcome * Session * TransactionManager :=
  if is_empty (currentKey s) then (Err "no active transaction", s, tm)
  else
    match transactions tm !! currentKey s with
    | None => (Err "transaction not found", s, tm)
    | Some trans =>
        (Nil, s,
         mkTM (<[currentKey s := addRecipient trans rcpt]> (transactions tm))
              (<[currentKey s := now]> (timeouts tm)))
    end.

(** [func processEmailContent(msg, data, trans *EmailTransaction) error].
    With a nil [trans] every path dereferences it, at the latest in
    [trans.appendData], so the call panics; otherwise it returns nil and the
    result is the row as left behind the pointer. *)
Definition processEmailContent (msg : Entity) (data : string)
    (trans : option EmailTransaction) : option EmailTransaction :=
  match trans with
  | None => None
  | Some t =>
      let t1 :=
        match eFrom msg with
        | Some (a :: _) => mkTrans a (to t) (cc t) (bcc t) (dataBuffers t)
        | _ => t
        end in
      let t2 :=
        match eTo msg with
        | Some addrs => foldl addRecipient t1 addrs
        | None => t1
        end in
      Some (appendData t2 data)
  end.

(** [func (s *Session) Data(r io.Reader) error] *)
Definition Data (s : Session) (tm : TransactionManager) (r : Stream)
    (now : Z) : outcome * Session * TransactionManager :=
  if is_empty (currentKey s) then (Err "no active transaction", s, tm)
  else
    match r with
    | ReadError e => (Err e, s, tm)
    | ReadAll tempBuffer =>
        match message_Read tempBuffer with
        | Fail e => (Err e, s, tm)
        | Val msg =>
            let subject :=
              if is_empty (eSubject msg) then "No Subject" else eSubject msg in
            let finalKey :=
              sessionID s +:+ ":" +:+ activeEmail s +:+ ":" +:+ subject in
            let '(s1, tm1) :=
              match transactions tm !! currentKey s with
              | Some trans =>
                  (mkSession (sessionID s) finalKey (activeEmail s) (pendingKeys s),
                   mkTM (delete (currentKey s) (<[finalKey := trans]> (transactions tm)))
                        (delete (currentKey s) (<[finalKey := now]> (timeouts tm))))
              | None => (s, tm)
              end in
            match processEmailContent msg tempBuffer (transactions tm1 !! finalKey) with
            | None => (Panic "nil pointer dereference", s1, tm1)
            | Some t' =>
                (Nil, s1, mkTM (<[finalKey := t']> (transactions tm1)) (timeouts tm1))
            end
        end
    end.

(** [func (s *Session) Reset()] *)
Definition Reset (s : Session) (tm : TransactionManager) : Session * TransactionManager :=
  let tm' :=
    if is_empty (currentKey s) then tm
    else mkTM (delete (currentKey s) (transactions tm))
              (delete (currentKey s) (timeouts tm)) in
  (mkSession (sessionID s) EmptyString EmptyString [], tm').

(** *** Delivery client *)

(** [func doSendMail(sender string, payload) error] *)
Definition doSendMail (sender : string) (payload : GraphMessage)
    (w : World) : option string * World :=
  let n := calls w in
  let url := "https://graph.microsoft.com/v1.0/users/" +:+ sender +:+ "/sendMail" in
  match token_endpoint n with
  | Fail e =>
      (Some ("failed to get access token: " +:+ e),
       mkWorld (S n) (sleeps w) (posts w))
  | Val token =>
      let w' := mkWorld (S n) (sleeps w) (posts w ++ [(url, payload)]) in
      match send_endpoint n url token payload with
      | Fail e => (Some e, w')
      | Val (status, responseBody) =>
          if (status =? 202)%Z then (None, w')
          else (Some ("graph API error: " +:+ responseBody), w')
      end
  end.

Definition maxRetries : nat := 3.

(** The loop of [sendMail] from [attempt] on, with [remaining] iterations
    left before [attempt] reaches [maxRetries]. *)
Fixpoint sendMail_loop (remaining : nat) (attempt : Z) (lastErr : string)
    (sender : string) (payload : GraphMessage) (w : World) : option string * World :=
  match remaining with
  | O =>
      (Some ("failed after " +:+ format_int (Z.of_nat maxRetries)
             +:+ " retries. Last error: " +:+ lastErr), w)
  | S remaining' =>
      let w1 :=
        if (0 <? attempt)%Z
        then mkWorld (calls w) (sleeps w ++ [time_Second * Z.shiftl 1 attempt]%Z) (posts w)
        else w in
      match doSendMail sender payload w1 with
      | (Some err, w2) =>
          if negb (Contains err "MailboxInfoStale") then (Some err, w2)
          else sendMail_loop remaining' (attempt + 1)%Z err sender payload w2
      | (None, w2) => (None, w2)
      end
  end.

(** [func sendMail(sender string, payload) error] *)
Definition sendMail (sender : string) (payload : GraphMessage)
    (w : World) : option string * World :=
  sendMail_loop maxRetries 0 "<nil>" sender payload w.

(** *** Content transformer *)

(** The locals [textBody], [htmlBody] and [attachments] of [processEmail]. *)
Record Bodies : Type := mkBodies {
  textBody : string;
  htmlBody : string;
  atts : list Attachment
}.

Definition inline_images : list string :=
  ["image/png"; "image/jpeg"; "image/jpg"; "image/bmp"; "image/gif"].

(** One iteration of the MIME loop of [processEmail], after [NextPart]
    returned [part]: the type switch on its header. *)
Definition process_part (b : Bodies) (part : Part) : Bodies :=
  match part with
  | InlinePart contentType contentID bodyBytes =>
      if String.eqb contentType "text/plain" then
        if is_empty (textBody b)
        then mkBodies bodyBytes (htmlBody b) (atts b)
        else b
      else if String.eqb contentType "text/html" then
        if is_empty (htmlBody b)
        then mkBodies (textBody b) bodyBytes (atts b)
        else b
      else if existsb (String.eqb contentType) inline_images then
        let contentID := Trim contentID "<>" in
        let base64Image := EncodeToString bodyBytes in
        if negb (is_empty (htmlBody b)) then
          let oldRef := "cid:" +:+ contentID in
          let newRef := "data:" +:+ contentType +:+ ";base64," +:+ base64Image in
          mkBodies (textBody b) (ReplaceAll (htmlBody b) oldRef newRef) (atts b)
        else b
      else b
  | AttachmentPart filename contentType attachmentBytes =>
      mkBodies (textBody b) (htmlBody b)
        (atts b ++ [mkAttachment "#microsoft.graph.fileAttachment" filename
                      contentType (EncodeToString attachmentBytes)])
  end.

(** The MIME loop of [processEmail]: [NextPart] until [io.EOF]; an error of
    [NextPart] ends [processEmail] with that error. *)
Fixpoint process_parts (parts : list (result Part)) (b : Bodies) : result Bodies :=
  match parts with
  | [] => Val b
  | Fail e :: _ => Fail ("failed to read MIME part: " +:+ e)
  | Val part :: rest => process_parts rest (process_part b part)
  end.

(** The address list of a header, empty when [AddressList] failed. *)
Definition addresses (l : option (list string)) : list string :=
  match l with Some addrs => addrs | None => [] end.

(** [rcptMap] of [processEmail] after the To and Cc loops: the keys set to
    true. *)
Definition rcptMap (rd : Reader) : gset string :=
  list_to_set (ToLower <$> (addresses (rTo rd) ++ addresses (rCc rd))).

(** The loop over [trans.to] that fills [bccList]. *)
Definition classify_bcc (rd : Reader) (rcpts : list string) : list string :=
  filter (fun rcpt => ToLower rcpt ∉ rcptMap rd) rcpts.

(** [func buildRecipients(list []string)] *)
Definition buildRecipients (l : list string) : list Recipient :=
  mkRecipient <$> l.

(** [func buildGraphMessage(...)] *)
Definition buildGraphMessage (subject bodyContentType messageBody : string)
    (toList ccList bccList : list string) (attachments : list Attachment) : GraphMessage :=
  mkGraphMessage subject bodyContentType messageBody
    (buildRecipients toList) (buildRecipients ccList) (buildRecipients bccList)
    attachments false.

(** The guard at the head of [processEmail]. *)
Definition missing_fields (trans : EmailTransaction) : bool :=
  is_empty (from trans) || bool_decide (length (to trans) = 0)
  || bool_decide (length (dataBuffers trans) = 0).

(** [emailContent]: all buffers written into [fullBody], in order. *)
Definition emailContent (trans : EmailTransaction) : string :=
  foldl String.append EmptyString (dataBuffers trans).

(** [processEmail] up to and including [buildGraphMessage]: the payload
    handed to [sendMail], or the error [processEmail] returns before it. *)
Definition processEmail_message (trans : EmailTransaction) : result GraphMessage :=
  if missing_fields trans
  then Fail "invalid email transaction: missing required fields"
  else
    match mail_CreateReader (emailContent trans) with
    | Fail e => Fail ("failed to parse email: " +:+ e)
    | Val msg =>
        let subject := if is_empty (rSubject msg) then "No Subject" else rSubject msg in
        let toList := addresses (rTo msg) in
        let ccList := addresses (rCc msg) in
        let bccList := classify_bcc msg (to trans) in
        match process_parts (rParts msg) (mkBodies EmptyString EmptyString []) with
        | Fail e => Fail e
        | Val b =>
            let '(messageBody, bodyContentType) :=
              if negb (is_empty (htmlBody b)) then (htmlBody b, "HTML")
              else (textBody b, "Text") in
            if is_empty messageBody then Fail "email has no body content"
            else Val (buildGraphMessage subject bodyContentType messageBody
                        toList ccList bccList (atts b))
        end
    end.

(** [func processEmail(trans *EmailTransaction) error] *)
Definition processEmail (trans : EmailTransaction) (w : World) : option string * World :=
  match processEmail_message trans with
  | Fail e => (Some e, w)
  | Val graphMessage =>
      match sendMail (from trans) graphMessage w with
      | (Some err, w') => (Some ("failed to send email: " +:+ err), w')
      | (None, w') => (None, w')
      end
  end.

(** [func (s *Session) Logout() error] *)
Definition Logout (s : Session) (tm : TransactionManager) (w : World)
    : outcome * Session * TransactionManager * World :=
  if is_empty (currentKey s) then (Nil, s, tm, w)
  else
    match transactions tm !! currentKey s with
    | Some trans =>
        match processEmail trans w with
        | (Some err, w') => (Err err, s, tm, w')
        | (None, w') =>
            (Nil, s,
             mkTM (delete (currentKey s) (transactions tm))
                  (delete (currentKey s) (timeouts tm)), w')
        end
    | None => (Nil, s, tm, w)
    end.

(** *** A connection as a sequence of commands *)

(** The SMTP verbs the protocol engine hands to the session, with the clock
    readings and the DATA stream each call consumes. *)
Inductive Command : Type :=
| MAIL (f : string) (transactionTime now : Z)
| RCPT (rcpt : string) (now : Z)
| DATA (r : Stream) (now : Z)
| RSET
| QUIT.

Definition is_MAIL (c : Command) : bool :=
  match c with MAIL _ _ _ => true | _ => false end.

(** The session, the shared store and the outside world. *)
Record Conn : Type := mkConn {
  session : Session;
  store : TransactionManager;
  world : World
}.

(** One command on a connection, with what the method returned. *)
Definition step (c : Conn) (cmd : Command) : outcome * Conn :=
  match cmd with
  | MAIL f transactionTime now =>
      let '(o, s, tm) := Mail (session c) (store c) f transactionTime now in
      (o, mkConn s tm (world c))
  | RCPT rcpt now =>
      let '(o, s, tm) := Rcpt (session c) (store c) rcpt now in
      (o, mkConn s tm (world c))
  | DATA r now =>
      let '(o, s, tm) := Data (session c) (store c) r now in
      (o, mkConn s tm (world c))
  | RSET =>
      let '(s, tm) := Reset (session c) (store c) in
      (Nil, mkConn s tm (world c))
  | QUIT =>
      let '(o, s, tm, w) := Logout (session c) (store c) (world c) in
      (o, mkConn s tm w)
  end.

(** A sequence of commands, oldest first; the outcomes are collected. *)
Fixpoint run (c : Conn) (cmds : list Command) : list outcome * Conn :=
  match cmds with
  | [] => ([], c)
  | cmd :: rest =>
      let '(o, c1) := step c cmd in
      let '(os, c2) := run c1 rest in
      (o :: os, c2)
  end.

End Relay.

(** ** Notions of the specification *)

(** No two entries equal under case-insensitive comparison. *)
Fixpoint fold_distinct `{Folding} (l : list string) : bool :=
  match l with
  | [] => true
  | x :: r => negb (existsb (EqualFold x) r) && fold_distinct r
  end.

(** The addresses of [l] that are not equal, under case-insensitive
    comparison, to an address met before them ([seen] holds those met so
    far), in the order of [l]. *)
Fixpoint first_seen_from `{Folding} (seen l : list string) : list string :=
  match l with
  | [] => []
  | x :: r =>
      if existsb (fun y => EqualFold y x) seen
      then first_seen_from (seen ++ [x]) r
      else x :: first_seen_from (seen ++ [x]) r
  end.

Definition first_seen `{Folding} (l : list string) : list string := first_seen_from [] l.

(** [seen] and [kept] name the same addresses up to case. *)
Definition same_classes `{Folding} (seen kept : list string) : Prop :=
  forall x, existsb (fun y => EqualFold y x) seen = existsb (fun y => EqualFold y x) kept.

(** A part that gives [processEmail] an HTML body, and one that gives it a
    plain-text body: an inline part of that media type with a body that is
    not empty. *)
Definition is_html_body (p : result Part) : bool :=
  match p with
  | Val (InlinePart contentType _ body) =>
      String.eqb contentType "text/html" && negb (is_empty body)
  | _ => false
  end.

Definition is_text_body (p : result Part) : bool :=
  match p with
  | Val (InlinePart contentType _ body) =>
      String.eqb contentType "text/plain" && negb (is_empty body)
  | _ => false
  end.

(** [NextPart] never failed. *)
Definition all_read (parts : list (result Part)) : bool :=
  forallb (fun p => match p with Val _ => true | Fail _ => false end) parts.

(** Every row of the store satisfies the recipient invariant. *)
Definition store_distinct `{Folding} (tm : TransactionManager) : Prop :=
  map_Forall (fun _ t => fold_distinct (to t) = true) (transactions tm).

(** The subject-qualified key [Data] moves the row to. *)
Definition finalKey_of (s : Session) (msg : Entity) : string :=
  sessionID s +:+ ":" +:+ activeEmail s +:+ ":"
  +:+ (if is_empty (eSubject msg) then "No Subject" else eSubject msg).

(** ** Further code of [main.go] and notions for its properties *)

(** One wake-up of the loop of [func (tm *TransactionManager)
    startCleanupRoutine()] at time [now]: the sweep of [cleanup] with a
    threshold of two minutes (the row is looked up only to be logged). *)
Definition startCleanupRoutine (tm : TransactionManager) (now : Z) : TransactionManager :=
  let stale := filter (fun kt => 2 * time_Minute <? now - kt.2)%Z (map_to_list (timeouts tm)) in
  foldr (fun kt m => mkTM (delete kt.1 (transactions m)) (delete kt.1 (timeouts m)))
        tm stale.

(** The loop the two reclamation tasks share, by threshold: every key whose
    timestamp is older than [threshold] is deleted from both maps. *)
Definition sweep (threshold : Z) (tm : TransactionManager) (now : Z) : TransactionManager :=
  let stale := filter (fun kt => threshold <? now - kt.2)%Z (map_to_list (timeouts tm)) in
  foldr (fun kt m => mkTM (delete kt.1 (transactions m)) (delete kt.1 (timeouts m)))
        tm stale.

(** The URL [doSendMail] posts to. *)
Definition sendURL (sender : string) : string :=
  "https://graph.microsoft.com/v1.0/users/" +:+ sender +:+ "/sendMail".

(** The two maps of the store name the same keys. *)
Definition store_coherent (tm : TransactionManager) : Prop :=
  dom (transactions tm) = dom (timeouts tm).

(** The key a session holds, if any, starts with its own identifier. *)
Definition session_keyed (s : Session) : Prop :=
  is_empty (currentKey s) = true \/
  HasPrefix (currentKey s) (sessionID s +:+ ":") = true.

(** The entry an attachment part adds to the attachment array. *)
Definition attachment_of (p : result Part) : list Attachment :=
  match p with
  | Val (AttachmentPart filename contentType bytes) =>
      [mkAttachment "#microsoft.graph.fileAttachment" filename contentType
         (EncodeToString bytes)]
  | _ => []
  end.

(** The body of the first inline text/plain part whose body is not empty. *)
Definition first_text (parts : list (result Part)) : string :=
  match find is_text_body parts with
  | Some (Val (InlinePart _ _ body)) => body
  | _ => EmptyString
  end.

(** The sleeps [sendMail] can make, in order. *)
Definition backoffs : list Z := [2 * time_Second; 4 * time_Second]%Z.

(** ** Concrete messages and endpoints

    The inputs the statements below are evaluated on.  The two parsers are
    given as tables: each raw message is listed with what go-message reads
    from it, and any other input is a parse error. *)

Module Scenario.

(** The addresses below are ASCII: the two folding functions are evaluated
    with their restriction to ASCII strings. *)
#[local] Instance ascii_folding : Folding :=
  {| EqualFold := EqualFold_ascii; ToLower := ToLower_ascii |}.

Definition crlf : string := String (ascii_of_nat 13) (String (ascii_of_nat 10) EmptyString).

Definition lines (l : list string) : string :=
  foldr (fun x acc => x +:+ crlf +:+ acc) EmptyString l.

(** A plain message to b@co. *)
Definition raw_hi : string :=
  lines ["To: b@co"; "Subject: Hi"; EmptyString; "hello"].

(** A plain message whose To header names a@x only. *)
Definition raw_to_a : string :=
  lines ["To: a@x"; "Subject: Hi"; EmptyString; "hello"].

(** A plain message without a To header. *)
Definition raw_no_to : string :=
  lines ["Subject: Hi"; EmptyString; "hello"].

Definition html_page : string := "<p><img src=cid:img1></p>".

Definition related (first second : list string) : string :=
  lines (["To: b@co"; "Subject: Pic"; "MIME-Version: 1.0";
          "Content-Type: multipart/related; boundary=frontier"; EmptyString;
          "--frontier"] ++ first ++ ["--frontier"] ++ second ++ ["--frontier--"]).

Definition html_lines : list string :=
  ["Content-Type: text/html"; EmptyString; html_page].

Definition image_lines : list string :=
  ["Content-Type: image/png"; "Content-Disposition: inline";
   "Content-ID: <img1>"; "Content-Transfer-Encoding: base64"; EmptyString; "aGk="].

(** HTML part, then the image it references. *)
Definition raw_html_first : string := related html_lines image_lines.

(** The same two parts, image first. *)
Definition raw_image_first : string := related image_lines html_lines.

(** One attachment and no body part. *)
Definition raw_attachment_only : string :=
  lines ["To: b@co"; "Subject: File"; "MIME-Version: 1.0";
         "Content-Type: multipart/mixed; boundary=frontier"; EmptyString;
         "--frontier"; "Content-Type: text/csv";
         "Content-Disposition: attachment; filename=a.csv"; EmptyString;
         "1,2"; "--frontier--"].

Definition html_part : Part := InlinePart "text/html" EmptyString html_page.
Definition image_part : Part := InlinePart "image/png" "<img1>" "hi".

(** [message.Read] on the messages above. *)
Definition message_Read (raw : string) : result Entity :=
  if String.eqb raw raw_hi then Val (mkEntity "Hi" (Some []) (Some ["b@co"]))
  else if String.eqb raw raw_to_a then Val (mkEntity "Hi" (Some []) (Some ["a@x"]))
  else if String.eqb raw raw_no_to then Val (mkEntity "Hi" (Some []) (Some []))
  else if String.eqb raw raw_html_first then Val (mkEntity "Pic" (Some []) (Some ["b@co"]))
  else if String.eqb raw raw_image_first then Val (mkEntity "Pic" (Some []) (Some ["b@co"]))
  else if String.eqb raw raw_attachment_only then Val (mkEntity "File" (Some []) (Some ["b@co"]))
  else Fail "malformed MIME header line".

(** [mail.CreateReader] on the messages above. *)
Definition mail_CreateReader (raw : string) : result Reader :=
  let plain := [Val (InlinePart "text/plain" EmptyString ("hello" +:+ crlf))] in
  if String.eqb raw raw_hi then Val (mkReader "Hi" (Some ["b@co"]) (Some []) plain)
  else if String.eqb raw raw_to_a then Val (mkReader "Hi" (Some ["a@x"]) (Some []) plain)
  else if String.eqb raw raw_no_to then Val (mkReader "Hi" (Some []) (Some []) plain)
  else if String.eqb raw raw_html_first then
    Val (mkReader "Pic" (Some ["b@co"]) (Some []) [Val html_part; Val image_part])
  else if String.eqb raw raw_image_first then
    Val (mkReader "Pic" (Some ["b@co"]) (Some []) [Val image_part; Val html_part])
  else if String.eqb raw raw_attachment_only then
    Val (mkReader "File" (Some ["b@co"]) (Some [])
           [Val (AttachmentPart "a.csv" "text/csv" "1,2")])
  else Fail "malformed MIME header line".

(** The identity endpoint always issues a token. *)
Definition token_ok (n : nat) : result string := Val "token".

(** The send endpoint accepts every message. *)
Definition send_accept (n : nat) (url token : string) (m : GraphMessage) : result (Z * string) :=
  Val (202%Z, EmptyString).

(** The send endpoint answers the first two requests with the transient
    failure and accepts the third. *)
Definition send_stale_twice (n : nat) (url token : string) (m : GraphMessage) : result (Z * string) :=
  if (n <? 2)%nat then Val (503%Z, "ErrorCode: MailboxInfoStale") else Val (202%Z, EmptyString).

(** The send endpoint rejects every message. *)
Definition send_reject (n : nat) (url token : string) (m : GraphMessage) : result (Z * string) :=
  Val (500%Z, "InternalServerError").

Definition conn0 : Conn := mkConn (NewSession "s1") NewTransactionManager World0.

Definition note : GraphMessage :=
  buildGraphMessage "Hi" "Text" "hello" ["b@co"] [] [] [].

(** MAIL, RCPT, DATA and QUIT against a send endpoint that rejects. *)
Definition rejected_quit : list outcome * Conn :=
  run message_Read mail_CreateReader token_ok send_reject conn0
    [MAIL "a@co" 100 100; RCPT "b@co" 200; DATA (ReadAll raw_hi) 300; QUIT].

(** MAIL alone: the connection holds an open transaction without
    recipients. *)
Definition mail_only : Conn :=
  (run message_Read mail_CreateReader token_ok send_accept conn0
     [MAIL "a@co" 100 100]).2.

(** MAIL, then RCPT with case-only variants of one address among others. *)
Definition rcpt_variants : list outcome * Conn :=
  run message_Read mail_CreateReader token_ok send_accept mail_only
    [RCPT "b@co" 200; RCPT "B@CO" 300; RCPT "c@co" 400; RCPT "B@co" 500].

(** MAIL, then a second MAIL before the first transaction was completed. *)
Definition mail_twice : list outcome * Conn :=
  run message_Read mail_CreateReader token_ok send_accept conn0
    [MAIL "a@co" 100 100; MAIL "c@co" 200 200].

(** MAIL, then DATA without any RCPT. *)
Definition data_without_rcpt : list outcome * Conn :=
  run message_Read mail_CreateReader token_ok send_accept conn0
    [MAIL "a@co" 100 100; DATA (ReadAll raw_no_to) 300].

(** MAIL and RCPT at 100 ns and 200 ns, then a sweep of the reclamation task
    six minutes later, while the session still holds its key. *)
Definition after_sweep : Conn :=
  let c := (run message_Read mail_CreateReader token_ok send_accept conn0
              [MAIL "a@co" 100 100; RCPT "b@co" 200]).2 in
  mkConn (session c) (cleanup (store c) (6 * time_Minute)) (world c).

(** The transaction of the BCC example: recipients a@x and b@x, the To
    header names a@x only. *)
Definition two_rcpts : EmailTransaction :=
  mkTrans "s@x" ["a@x"; "b@x"] [] [] [raw_to_a].

Definition picture (raw : string) : EmailTransaction :=
  mkTrans "a@co" ["b@co"] [] [] [raw].

(** The payload of [two_rcpts]. *)
Definition two_rcpts_message : GraphMessage :=
  buildGraphMessage "Hi" "Text" ("hello" +:+ crlf) ["a@x"] [] ["b@x"] [].

(** The payloads of the two orders of the HTML part and its image. *)
Definition html_first_message : GraphMessage :=
  buildGraphMessage "Pic" "HTML" "<p><img src=data:image/png;base64,aGk=></p>"
    ["b@co"] [] [] [].

Definition image_first_message : GraphMessage :=
  buildGraphMessage "Pic" "HTML" html_page ["b@co"] [] [] [].

(** The readers of the two orders. *)
Definition html_first_reader : Reader :=
  mkReader "Pic" (Some ["b@co"]) (Some []) [Val html_part; Val image_part].

Definition image_first_reader : Reader :=
  mkReader "Pic" (Some ["b@co"]) (Some []) [Val image_part; Val html_part].

(** Commands of a client that never issues MAIL. *)
Definition no_mail : list Command :=
  [RSET; DATA (ReadAll raw_hi) 50; RCPT "z@co" 60; QUIT].

(** MAIL, RCPT and the same message in two DATA commands. *)
Definition data_twice : list outcome * Conn :=
  run message_Read mail_CreateReader token_ok send_accept conn0
    [MAIL "a@co" 100 100; RCPT "b@co" 200; DATA (ReadAll raw_hi) 300;
     DATA (ReadAll raw_hi) 400].

(** MAIL, RCPT, DATA: a complete transaction waiting for QUIT. *)
Definition ready : Conn :=
  (run message_Read mail_CreateReader token_ok send_accept conn0
     [MAIL "a@co" 100 100; RCPT "b@co" 200; DATA (ReadAll raw_hi) 300]).2.

(** The row of [ready]. *)
Definition ready_row : EmailTransaction :=
  mkTrans "a@co" ["b@co"] [] [] [raw_hi].

(** A message whose From header differs from the envelope sender. *)
Definition raw_from : string :=
  lines ["From: boss@co"; "To: b@co"; "Subject: Hi"; EmptyString; "hello"].

(** [message.Read] on [raw_from]. *)
Definition read_from (raw : string) : result Entity :=
  if String.eqb raw raw_from then Val (mkEntity "Hi" (Some ["boss@co"]) (Some ["b@co"]))
  else Fail "malformed MIME header line".

(** MAIL and RCPT: an open transaction with one recipient. *)
Definition mail_rcpt : Conn :=
  (run message_Read mail_CreateReader token_ok send_accept conn0
     [MAIL "a@co" 100 100; RCPT "b@co" 200]).2.

(** The send endpoint always answers with the transient failure. *)
Definition send_stale (n : nat) (url token : string) (m : GraphMessage) : result (Z * string) :=
  Val (503%Z, "ErrorCode: MailboxInfoStale").

(** The identity endpoint is down. *)
Definition token_down (n : nat) : result string := Fail "connection refused".

(** A store with one row last touched at 0 and one last touched at four
    minutes. *)
Definition two_ages : TransactionManager :=
  mkTM (<["old" := newTransaction "a@co"]> (<["young" := newTransaction "b@co"]> ∅))
       (<["old" := 0%Z]> (<["young" := (4 * time_Minute)%Z]> ∅)).

(** A text part, an attachment, a second text part and a second
    attachment. *)
Definition mixed_parts : list (result Part) :=
  [Val (InlinePart "text/plain" EmptyString "first");
   Val (AttachmentPart "a.csv" "text/csv" "1,2");
   Val (InlinePart "text/plain" EmptyString "second");
   Val (AttachmentPart "b.txt" "text/plain" "hi")].

Definition mixed_reader : Reader :=
  mkReader EmptyString (Some ["b@co"; "c@co"]) (Some ["d@co"]) mixed_parts.

(** The message of [mixed_parts], to b@co and c@co, copy to d@co, without
    a Subject header. *)
Definition raw_mixed : string :=
  lines ["To: b@co, c@co"; "Cc: d@co"; "MIME-Version: 1.0";
         "Content-Type: multipart/mixed; boundary=frontier"; EmptyString;
         "--frontier"; "Content-Type: text/plain"; EmptyString; "first";
         "--frontier"; "Content-Type: text/csv";
         "Content-Disposition: attachment; filename=a.csv"; EmptyString; "1,2";
         "--frontier"; "Content-Type: text/plain"; EmptyString; "second";
         "--frontier"; "Content-Type: text/plain";
         "Content-Disposition: attachment; filename=b.txt"; EmptyString; "hi";
         "--frontier--"].

(** [mail.CreateReader] on [raw_mixed]. *)
Definition read_mixed (raw : string) : result Reader :=
  if String.eqb raw raw_mixed then Val mixed_reader
  else Fail "malformed MIME header line".

Definition mixed : EmailTransaction :=
  mkTrans "a@co" ["b@co"] [] [] [raw_mixed].

(** The payload of [mixed]. *)
Definition mixed_message : GraphMessage :=
  buildGraphMessage "No Subject" "Text" "first" ["b@co"; "c@co"] ["d@co"] []
    [mkAttachment "#microsoft.graph.fileAttachment" "a.csv" "text/csv" "MSwy";
     mkAttachment "#microsoft.graph.fileAttachment" "b.txt" "text/plain" "aGk="].

(** A multipart message cut off after its first part: the second call of
    [NextPart] fails. *)
Definition raw_truncated : string :=
  lines ["To: b@co"; "Subject: Cut"; "MIME-Version: 1.0";
         "Content-Type: multipart/mixed; boundary=frontier"; EmptyString;
         "--frontier"; "Content-Type: text/plain"; EmptyString; "first"].

Definition truncated_reader : Reader :=
  mkReader "Cut" (Some ["b@co"]) (Some [])
    [Val (InlinePart "text/plain" EmptyString "first"); Fail "multipart: NextPart: EOF"].

(** [mail.CreateReader] on [raw_truncated]. *)
Definition read_truncated (raw : string) : result Reader :=
  if String.eqb raw raw_truncated then Val truncated_reader
  else Fail "malformed MIME header line".

Definition truncated : EmailTransaction :=
  mkTrans "a@co" ["b@co"] [] [] [raw_truncated].

(** An HTML body without any reference to an image. *)
Definition no_picture : Bodies :=
  mkBodies EmptyString "<p>no picture</p>" [].

(** A connection of session s1 on a store that holds the rows of others. *)
Definition among_others : Conn :=
  mkConn (NewSession "s1") two_ages World0.

End Scenario.

(** * Properties *)

(** ** The string functions on small inputs *)

Example ToLower_upper : ToLower_ascii "B@CO" = "b@co".
Proof. reflexivity. Qed.

Example EqualFold_case_only : EqualFold_ascii "b@co" "B@CO" = true.
Proof. reflexivity. Qed.

Example EqualFold_other : EqualFold_ascii "b@co" "c@co" = false.
Proof. reflexivity. Qed.

Example Contains_marker :
  Contains "graph API error: ErrorCode: MailboxInfoStale" "MailboxInfoStale" = true.
Proof. reflexivity. Qed.

Example ReplaceAll_no_overlap : ReplaceAll "aXXbXXX" "XX" "-" = "a-b-X".
Proof. reflexivity. Qed.

Example Trim_angle : Trim "<img1@relay>" "<>" = "img1@relay".
Proof. reflexivity. Qed.

Example EncodeToString_pad1 : EncodeToString "hello" = "aGVsbG8=".
Proof. reflexivity. Qed.

Example EncodeToString_pad2 : EncodeToString "Many" = "TWFueQ==".
Proof. reflexivity. Qed.

Example EncodeToString_pad0 : EncodeToString "Man" = "TWFu".
Proof. reflexivity. Qed.

Example format_int_nanos : format_int 1700000000 = "1700000000".
Proof. reflexivity. Qed.

(** ** The folding functions on ASCII strings *)

Lemma EqualFold_ascii_ToLower (s t : string) :
  EqualFold_ascii s t = true <-> ToLower_ascii s = ToLower_ascii t.
Proof.
  revert t. induction s as [|a s IH]; intros [|b t]; simpl; try (split; congruence).
  rewrite andb_true_iff, Ascii.eqb_eq, IH. split.
  - intros [-> ->]. reflexivity.
  - intros H. injection H as H1 H2. auto.
Qed.

Lemma EqualFold_ascii_refl (s : string) : EqualFold_ascii s s = true.
Proof. apply EqualFold_ascii_ToLower. reflexivity. Qed.

Lemma EqualFold_ascii_sym (s t : string) : EqualFold_ascii s t = EqualFold_ascii t s.
Proof.
  revert t. induction s as [|a s IH]; intros [|b t]; simpl; try reflexivity.
  rewrite IH, Ascii.eqb_sym. reflexivity.
Qed.

Lemma EqualFold_ascii_trans (s t u : string) :
  EqualFold_ascii s t = true -> EqualFold_ascii t u = true -> EqualFold_ascii s u = true.
Proof. rewrite !EqualFold_ascii_ToLower. congruence. Qed.

(** ** The recipient list *)

Section RecipientFacts.

Context {fold_fns : Folding}.

(** Two laws of [strings.EqualFold], which relates two strings when their
    runes lie pairwise in the same orbit of simple case folding.  A lemma
    below that uses one of them carries it as a hypothesis. *)
Hypothesis EqualFold_sym : forall s t, EqualFold s t = EqualFold t s.
Hypothesis EqualFold_trans :
  forall s t u, EqualFold s t = true -> EqualFold t u = true -> EqualFold s u = true.

Lemma fold_distinct_snoc (l : list string) (x : string) :
  fold_distinct (l ++ [x]) =
  fold_distinct l && negb (existsb (fun y => EqualFold y x) l).
Proof.
  induction l as [|a l IH]; simpl; [reflexivity|].
  rewrite existsb_app, IH. simpl.
  destruct (existsb (EqualFold a) l), (EqualFold a x), (fold_distinct l),
    (existsb (fun y => EqualFold y x) l); reflexivity.
Qed.

(** [fold_distinct] says what its name says: two different positions never
    hold addresses that are equal under case folding. *)
Lemma fold_distinct_spec (l : list string) :
  fold_distinct l = true <->
  forall (i j : nat) (x y : string),
    l !! i = Some x -> l !! j = Some y -> i <> j -> EqualFold x y = false.
Proof.
  induction l as [|a l IH]; simpl.
  - split; [intros _ i j x y Hi; discriminate|reflexivity].
  - rewrite andb_true_iff, negb_true_iff, IH. split.
    + intros [Ha Hl] i j x y Hi Hj Hne.
      assert (Hex : forall z, z ∈ l -> EqualFold a z = false).
      { intros z Hz. destruct (EqualFold a z) eqn:E; [|reflexivity].
        rewrite <- Ha. symmetry. apply existsb_exists. exists z.
        split; [apply list_elem_of_In, Hz|exact E]. }
      destruct i as [|i], j as [|j]; simpl in *; try congruence.
      * injection Hi as <-. apply Hex. eapply list_elem_of_lookup_2, Hj.
      * injection Hj as <-. rewrite EqualFold_sym. apply Hex.
        eapply list_elem_of_lookup_2, Hi.
      * eapply Hl; eauto.
    + intros H. split.
      * destruct (existsb (EqualFold a) l) eqn:E; [|reflexivity].
        apply existsb_exists in E as (z & Hz & Hfold).
        apply list_elem_of_In, list_elem_of_lookup in Hz as [j Hj].
        rewrite <- Hfold. apply (H 0 (S j)); auto.
      * intros i j x y Hi Hj Hne. apply (H (S i) (S j)); auto.
Qed.

Lemma addRecipient_to (e : EmailTransaction) (rcpt : string) :
  to (addRecipient e rcpt) =
  if existsb (fun r => EqualFold r rcpt) (to e) then to e else to e ++ [rcpt].
Proof. unfold addRecipient. destruct (existsb _ (to e)); reflexivity. Qed.

Lemma addRecipient_distinct (e : EmailTransaction) (rcpt : string) :
  fold_distinct (to e) = true -> fold_distinct (to (addRecipient e rcpt)) = true.
Proof.
  intros H. rewrite addRecipient_to.
  destruct (existsb _ (to e)) eqn:E; [exact H|].
  rewrite fold_distinct_snoc, H, E. reflexivity.
Qed.

Lemma addRecipient_all_distinct (rcpts : list string) (e : EmailTransaction) :
  fold_distinct (to e) = true ->
  fold_distinct (to (foldl addRecipient e rcpts)) = true.
Proof.
  revert e. induction rcpts as [|r rcpts IH]; intros e H; simpl; [exact H|].
  apply IH, addRecipient_distinct, H.
Qed.

Lemma addRecipient_all_first_seen (rcpts seen : list string) (e : EmailTransaction) :
  same_classes seen (to e) ->
  to (foldl addRecipient e rcpts) = to e ++ first_seen_from seen rcpts.
Proof.
  revert seen e. induction rcpts as [|r rcpts IH]; intros seen e Hsame; simpl.
  - rewrite app_nil_r. reflexivity.
  - rewrite (Hsame r).
    assert (Hto := addRecipient_to e r).
    destruct (existsb (fun y => EqualFold y r) (to e)) eqn:E.
    + rewrite (IH (seen ++ [r])), Hto; [reflexivity|].
      intros x. rewrite Hto, existsb_app, Hsame. simpl. rewrite orb_false_r.
      destruct (EqualFold r x) eqn:Erx; [|apply orb_false_r].
      rewrite orb_true_r. symmetry.
      apply existsb_exists in E as (y & Hy & Hyr).
      apply existsb_exists. exists y. split; [exact Hy|].
      eapply EqualFold_trans; eassumption.
    + rewrite (IH (seen ++ [r])), Hto, <- app_assoc; [reflexivity|].
      intros x. rewrite Hto, !existsb_app, Hsame. reflexivity.
Qed.

End RecipientFacts.

(** ** The session machine *)

Section SessionFacts.

Context {fold_fns : Folding}.

Variable message_Read : string -> result Entity.
Variable mail_CreateReader : string -> result Reader.
Variable token_endpoint : nat -> result string.
Variable send_endpoint : nat -> string -> string -> GraphMessage -> result (Z * string).

Local Abbreviation step := (step message_Read mail_CreateReader token_endpoint send_endpoint).
Local Abbreviation run := (run message_Read mail_CreateReader token_endpoint send_endpoint).

Lemma is_empty_true (s : string) : is_empty s = true <-> s = EmptyString.
Proof. destruct s; simpl; split; congruence. Qed.

Lemma is_empty_false (s : string) : is_empty s = false <-> s <> EmptyString.
Proof. destruct s; simpl; split; congruence. Qed.

Lemma Rcpt_no_key (s : Session) (tm : TransactionManager) (rcpt : string) (now : Z) :
  is_empty (currentKey s) = true ->
  Rcpt s tm rcpt now = (Err "no active transaction", s, tm).
Proof. intros H. unfold Rcpt. rewrite H. reflexivity. Qed.

(** A failed [Rcpt] leaves the session and the store as they were. *)
Lemma Rcpt_error_unchanged (s : Session) (tm : TransactionManager) (rcpt : string)
    (now : Z) (msg : string) (s' : Session) (tm' : TransactionManager) :
  Rcpt s tm rcpt now = (Err msg, s', tm') -> s' = s /\ tm' = tm.
Proof.
  unfold Rcpt. destruct (is_empty (currentKey s)); [intros [= _ <- <-]; auto|].
  destruct (transactions tm !! currentKey s); intros [=]; subst; auto.
Qed.

Lemma Rcpt_row (s : Session) (tm : TransactionManager) (e : EmailTransaction)
    (rcpt : string) (now : Z) :
  is_empty (currentKey s) = false ->
  transactions tm !! currentKey s = Some e ->
  Rcpt s tm rcpt now =
  (Nil, s, mkTM (<[currentKey s := addRecipient e rcpt]> (transactions tm))
                (<[currentKey s := now]> (timeouts tm))).
Proof. intros H1 H2. unfold Rcpt. rewrite H1, H2. reflexivity. Qed.

(** Without a current key, a command other than MAIL changes neither the key
    nor the store. *)
Lemma step_no_key (c : Conn) (cmd : Command) :
  is_empty (currentKey (session c)) = true ->
  is_MAIL cmd = false ->
  is_empty (currentKey (session (step c cmd).2)) = true /\
  sessionID (session (step c cmd).2) = sessionID (session c) /\
  store (step c cmd).2 = store c.
Proof.
  intros Hk Hm. destruct c as [s tm w]. simpl in Hk.
  destruct cmd as [f t now|rcpt now|r now| |]; try discriminate; simpl.
  - rewrite (Rcpt_no_key _ _ _ _ Hk). simpl. auto.
  - unfold Data. rewrite Hk. simpl. auto.
  - unfold Reset. rewrite Hk. simpl. auto.
  - unfold Logout. rewrite Hk. simpl. auto.
Qed.

Lemma run_cons (c : Conn) (cmd : Command) (cmds : list Command) :
  run c (cmd :: cmds) =
  ((step c cmd).1 :: (run (step c cmd).2 cmds).1, (run (step c cmd).2 cmds).2).
Proof.
  simpl. destruct (step c cmd) as [o c1]. simpl.
  destruct (run c1 cmds) as [os c2]. reflexivity.
Qed.

Lemma run_no_MAIL (cmds : list Command) (c : Conn) :
  is_empty (currentKey (session c)) = true ->
  forallb (fun cmd => negb (is_MAIL cmd)) cmds = true ->
  is_empty (currentKey (session (run c cmds).2)) = true /\
  store (run c cmds).2 = store c.
Proof.
  revert c. induction cmds as [|cmd cmds IH]; intros c Hk Hall.
  - simpl. auto.
  - simpl in Hall. apply andb_true_iff in Hall as [Hm Hall].
    apply negb_true_iff in Hm.
    destruct (step_no_key c cmd Hk Hm) as (Hk' & _ & Hst).
    rewrite run_cons. simpl.
    destruct (IH _ Hk' Hall) as [H1 H2]. rewrite H2, Hst. auto.
Qed.

(** A run of RCPT commands on an open transaction: every call returns nil
    and the row under the session's key collects the addresses through
    [addRecipient]. *)
Lemma run_RCPT (rcpts : list (string * Z)) (c : Conn) (e : EmailTransaction) :
  is_empty (currentKey (session c)) = false ->
  transactions (store c) !! currentKey (session c) = Some e ->
  Forall (eq Nil) (run c ((fun p => RCPT p.1 p.2) <$> rcpts)).1 /\
  session (run c ((fun p => RCPT p.1 p.2) <$> rcpts)).2 = session c /\
  transactions (store (run c ((fun p => RCPT p.1 p.2) <$> rcpts)).2)
    !! currentKey (session c) = Some (foldl addRecipient e rcpts.*1).
Proof.
  revert c e. induction rcpts as [|[r now] rcpts IH]; intros c e Hk He.
  - simpl. auto.
  - rewrite fmap_cons, run_cons. cbn [fst snd].
    assert (Hstep : step c (RCPT r now) =
              (Nil, mkConn (session c)
                      (mkTM (<[currentKey (session c) := addRecipient e r]> (transactions (store c)))
                            (<[currentKey (session c) := now]> (timeouts (store c))))
                      (world c))).
    { simpl. rewrite (Rcpt_row _ _ e); auto. }
    rewrite Hstep. cbn [fst snd].
    match goal with |- context [run ?c1 _] =>
      destruct (IH c1 (addRecipient e r)) as (H1 & H2 & H3) end.
    { exact Hk. }
    { simpl. apply lookup_insert_eq. }
    repeat split.
    + constructor; auto.
    + rewrite H2. reflexivity.
    + simpl in H3. exact H3.
Qed.

Lemma foldl_addRecipient_to (l : list string) (e1 e2 : EmailTransaction) :
  to e1 = to e2 -> to (foldl addRecipient e1 l) = to (foldl addRecipient e2 l).
Proof.
  revert e1 e2. induction l as [|r l IH]; intros e1 e2 H; simpl; [exact H|].
  apply IH. rewrite !addRecipient_to, H. reflexivity.
Qed.

Lemma foldl_addRecipient_dataBuffers (l : list string) (e : EmailTransaction) :
  dataBuffers (foldl addRecipient e l) = dataBuffers e.
Proof.
  revert e. induction l as [|r l IH]; intros e; simpl; [reflexivity|].
  rewrite IH. unfold addRecipient. destruct (existsb _ (to e)); reflexivity.
Qed.

(** What [processEmailContent] leaves behind a non-nil pointer. *)
Lemma processEmailContent_row (msg : Entity) (data : string) (t : EmailTransaction) :
  exists t', processEmailContent msg data (Some t) = Some t' /\
    to t' = to (foldl addRecipient t (addresses (eTo msg))) /\
    dataBuffers t' = dataBuffers t ++ [data].
Proof.
  unfold processEmailContent. eexists. split; [reflexivity|].
  set (t1 := match eFrom msg with Some (a :: _) => _ | _ => t end).
  assert (Hto : to t1 = to t) by (unfold t1; destruct (eFrom msg) as [[|? ?]|]; reflexivity).
  assert (Hd : dataBuffers t1 = dataBuffers t)
    by (unfold t1; destruct (eFrom msg) as [[|? ?]|]; reflexivity).
  destruct (eTo msg) as [addrs|]; simpl.
  - rewrite foldl_addRecipient_dataBuffers, Hd.
    split; [apply foldl_addRecipient_to, Hto|reflexivity].
  - rewrite Hto, Hd. auto.
Qed.

Lemma processEmailContent_nil (msg : Entity) (data : string) :
  processEmailContent msg data None = None.
Proof. reflexivity. Qed.

(** [Data] on a session whose row exists and whose subject-qualified key is
    not the key it already holds. *)
Lemma Data_row (s : Session) (tm : TransactionManager) (bytes : string)
    (msg : Entity) (trans : EmailTransaction) (now : Z) :
  is_empty (currentKey s) = false ->
  message_Read bytes = Val msg ->
  transactions tm !! currentKey s = Some trans ->
  finalKey_of s msg <> currentKey s ->
  exists t', processEmailContent msg bytes (Some trans) = Some t' /\
    Data message_Read s tm (ReadAll bytes) now =
    (Nil, mkSession (sessionID s) (finalKey_of s msg) (activeEmail s) (pendingKeys s),
     mkTM (<[finalKey_of s msg := t']>
             (delete (currentKey s) (<[finalKey_of s msg := trans]> (transactions tm))))
          (delete (currentKey s) (<[finalKey_of s msg := now]> (timeouts tm)))).
Proof.
  intros Hk Hread Hrow Hne.
  destruct (processEmailContent_row msg bytes trans) as (t' & Ht' & _).
  exists t'. split; [exact Ht'|].
  unfold Data. rewrite Hk, Hread, Hrow. fold (finalKey_of s msg). cbn [transactions timeouts].
  rewrite lookup_delete_ne by congruence. rewrite lookup_insert_eq, Ht'. reflexivity.
Qed.

(** The recipient invariant of the store is kept by every command. *)
Lemma step_store_distinct (c : Conn) (cmd : Command) :
  store_distinct (store c) -> store_distinct (store (step c cmd).2).
Proof.
  unfold store_distinct. intros Hinv. destruct c as [s tm w]. simpl in Hinv.
  destruct cmd as [f t now|rcpt now|r now| |]; simpl.
  - apply map_Forall_insert_2; [reflexivity|exact Hinv].
  - unfold Rcpt. destruct (is_empty (currentKey s)); [exact Hinv|].
    destruct (transactions tm !! currentKey s) as [e|] eqn:He; [|exact Hinv].
    simpl. apply map_Forall_insert_2; [|exact Hinv].
    apply addRecipient_distinct. exact (Hinv _ _ He).
  - unfold Data. destruct (is_empty (currentKey s)); [exact Hinv|].
    destruct r as [bytes|e]; [|exact Hinv].
    destruct (message_Read bytes) as [msg|e]; [|exact Hinv].
    fold (finalKey_of s msg).
    set (moved := match transactions tm !! currentKey s with
                  | Some trans => _ | None => (s, tm) end).
    assert (Hmoved : map_Forall (fun _ t => fold_distinct (to t) = true)
                       (transactions moved.2)).
    { unfold moved. destruct (transactions tm !! currentKey s) as [e|] eqn:He; [|exact Hinv].
      simpl. apply map_Forall_delete, map_Forall_insert_2; [|exact Hinv].
      exact (Hinv _ _ He). }
    destruct moved as [s1 tm1]. simpl in Hmoved.
    destruct (transactions tm1 !! finalKey_of s msg) as [e|] eqn:He; simpl; [|exact Hmoved].
    destruct (processEmailContent_row msg bytes e) as (t' & Ht' & Hto & _).
    unfold processEmailContent in Ht'. injection Ht' as Ht'. rewrite Ht'. simpl.
    apply map_Forall_insert_2; [|exact Hmoved].
    rewrite Hto. apply addRecipient_all_distinct. exact (Hmoved _ _ He).
  - unfold Reset. destruct (is_empty (currentKey s)); simpl; [exact Hinv|].
    apply map_Forall_delete, Hinv.
  - unfold Logout. destruct (is_empty (currentKey s)); [exact Hinv|].
    destruct (transactions tm !! currentKey s) as [e|]; [|exact Hinv].
    destruct (processEmail _ _ _ e w) as [[err|] w']; simpl; [exact Hinv|].
    apply map_Forall_delete, Hinv.
Qed.

(** The reclamation sweep only deletes rows. *)
Lemma cleanup_store_distinct (tm : TransactionManager) (now : Z) :
  store_distinct tm -> store_distinct (cleanup tm now).
Proof.
  unfold cleanup, store_distinct. intros Hinv.
  induction (filter _ (map_to_list (timeouts tm))) as [|kt l IH]; simpl; [exact Hinv|].
  apply map_Forall_delete, IH.
Qed.

(** C3, as amended.  [Mail] always returns nil, makes
    [sessionID:from:timestamp] the session's current key, and puts a fresh
    empty row and the current time under that key; every row and timestamp
    under another key, the session's prior row included, stays in the
    store. *)
Theorem C3_mail_opens_row_keeps_others (s : Session) (tm : TransactionManager)
    (f : string) (transactionTime now : Z) :
  let key := sessionID s +:+ ":" +:+ f +:+ ":" +:+ format_int transactionTime in
  exists s' tm',
    Mail s tm f transactionTime now = (Nil, s', tm') /\
    sessionID s' = sessionID s /\ currentKey s' = key /\ activeEmail s' = f /\
    transactions tm' !! key = Some (newTransaction f) /\
    timeouts tm' !! key = Some now /\
    forall k, k <> key ->
      transactions tm' !! k = transactions tm !! k /\
      timeouts tm' !! k = timeouts tm !! k.
Proof.
  intros key. eexists _, _. split; [reflexivity|]. cbn [sessionID currentKey activeEmail
    transactions timeouts]. fold key.
  repeat split; try apply lookup_insert_eq; apply lookup_insert_ne; congruence.
Qed.

(** C4, as amended.  [Data] returns an error and leaves session and store
    alone when the session has no current key, when the stream cannot be
    read and when the message cannot be parsed.  When the row of the current
    key exists and the key built from the subject is another key, [Data]
    returns nil whatever the number of recipients: the row moves to the new
    key, the addresses of the To header are added through [addRecipient] and
    the raw bytes are appended as one segment. *)
Theorem C4_data_accepts_any_recipient_count (s : Session) (tm : TransactionManager)
    (r : Stream) (now : Z) :
  (is_empty (currentKey s) = true ->
   Data message_Read s tm r now = (Err "no active transaction", s, tm)) /\
  (is_empty (currentKey s) = false -> forall e, r = ReadError e ->
   Data message_Read s tm r now = (Err e, s, tm)) /\
  (is_empty (currentKey s) = false -> forall bytes e, r = ReadAll bytes ->
   message_Read bytes = Fail e ->
   Data message_Read s tm r now = (Err e, s, tm)) /\
  (is_empty (currentKey s) = false -> forall bytes msg trans, r = ReadAll bytes ->
   message_Read bytes = Val msg ->
   transactions tm !! currentKey s = Some trans ->
   finalKey_of s msg <> currentKey s ->
   exists s' tm' t',
     Data message_Read s tm r now = (Nil, s', tm') /\
     currentKey s' = finalKey_of s msg /\
     transactions tm' !! currentKey s' = Some t' /\
     transactions tm' !! currentKey s = None /\
     timeouts tm' !! currentKey s' = Some now /\
     to t' = to (foldl addRecipient trans (addresses (eTo msg))) /\
     dataBuffers t' = dataBuffers trans ++ [bytes]).
Proof.
  repeat split.
  - intros Hk. unfold Data. rewrite Hk. reflexivity.
  - intros Hk e ->. unfold Data. rewrite Hk. reflexivity.
  - intros Hk bytes e -> Hread. unfold Data. rewrite Hk, Hread. reflexivity.
  - intros Hk bytes msg trans -> Hread Hrow Hne.
    destruct (Data_row s tm bytes msg trans now Hk Hread Hrow Hne) as (t' & Ht' & HD).
    destruct (processEmailContent_row msg bytes trans) as (t'' & Ht'' & Hto & Hbuf).
    assert (t'' = t') by congruence. subst t''.
    eexists _, _, t'. split; [exact HD|]. cbn [currentKey transactions timeouts].
    repeat split; auto.
    + apply lookup_insert_eq.
    + rewrite lookup_insert_ne by exact Hne. apply lookup_delete_eq.
    + rewrite lookup_delete_ne by congruence. apply lookup_insert_eq.
Qed.

(** C8.  The recipient invariant (no two entries of [to] equal under
    [strings.EqualFold]) holds in every row of the store after every command
    if it held before; and after MAIL and any sequence of RCPT commands,
    case-only variants included, every call has returned nil and the
    recipient list of the session's row is the list of the addresses not
    equal under [strings.EqualFold] to an address met before them, in
    first-seen order, and satisfies the invariant.  The first-seen reading
    uses that [strings.EqualFold] is transitive. *)
Theorem C8_recipients_distinct_first_seen :
  (forall (c : Conn) (cmd : Command),
     store_distinct (store c) -> store_distinct (store (step c cmd).2)) /\
  ((forall s t u, EqualFold s t = true -> EqualFold t u = true -> EqualFold s u = true) ->
   forall (c : Conn) (f : string) (transactionTime now : Z) (rcpts : list (string * Z)),
     let c1 := (step c (MAIL f transactionTime now)).2 in
     let res := run c1 ((fun p => RCPT p.1 p.2) <$> rcpts) in
     Forall (eq Nil) res.1 /\
     exists e,
       transactions (store res.2) !! currentKey (session res.2) = Some e /\
       to e = first_seen rcpts.*1 /\
       fold_distinct (to e) = true).
Proof.
  split; [exact step_store_distinct|].
  intros Htrans c f transactionTime now rcpts c1 res.
  assert (Hk : is_empty (currentKey (session c1)) = false).
  { unfold c1. simpl. destruct (sessionID (session c)); reflexivity. }
  assert (He : transactions (store c1) !! currentKey (session c1) = Some (newTransaction f)).
  { unfold c1. simpl. apply lookup_insert_eq. }
  destruct (run_RCPT rcpts c1 _ Hk He) as (Hnil & Hs & Hrow).
  fold res in Hnil, Hs, Hrow. split; [exact Hnil|].
  exists (foldl addRecipient (newTransaction f) rcpts.*1).
  rewrite Hs. split; [exact Hrow|]. split.
  - rewrite (addRecipient_all_first_seen Htrans _ []); [reflexivity|].
    intros x. reflexivity.
  - apply addRecipient_all_distinct. reflexivity.
Qed.

(** C9.  On a connection on which no MAIL was issued, whatever other
    commands came first, [Rcpt] returns the error of a missing transaction;
    the session and the store are returned as they were, and the store is
    still the one the connection started with: no row was created. *)
Theorem C9_rcpt_before_mail (id : string) (tm : TransactionManager) (w : World)
    (cmds : list Command) (rcpt : string) (now : Z) :
  forallb (fun cmd => negb (is_MAIL cmd)) cmds = true ->
  let c := (run (mkConn (NewSession id) tm w) cmds).2 in
  Rcpt (session c) (store c) rcpt now = (Err "no active transaction", session c, store c) /\
  store c = tm.
Proof.
  intros Hall c.
  destruct (run_no_MAIL cmds (mkConn (NewSession id) tm w) eq_refl Hall) as [Hk Hst].
  fold c in Hk, Hst. split; [|exact Hst].
  apply Rcpt_no_key, Hk.
Qed.

End SessionFacts.

(** ** The content transformer *)

Lemma append_nonempty (s t : string) : is_empty s = false -> is_empty (s +:+ t) = false.
Proof. destruct s; simpl; congruence. Qed.

(** Replacing a reference by a text that is not empty never empties a body. *)
Lemma ReplaceAll_nonempty (s old new : string) :
  is_empty s = false -> is_empty old = false -> is_empty new = false ->
  is_empty (ReplaceAll s old new) = false.
Proof.
  intros Hs Hold Hnew. destruct old as [|o old]; [discriminate|].
  destruct s as [|c s]; [discriminate|].
  unfold ReplaceAll. cbn [replace_from].
  destruct (HasPrefix _ _); [apply append_nonempty, Hnew|reflexivity].
Qed.

Lemma image_not_text (contentType : string) :
  existsb (String.eqb contentType) inline_images = true ->
  String.eqb contentType "text/plain" = false /\
  String.eqb contentType "text/html" = false.
Proof.
  unfold inline_images. cbn [existsb]. rewrite !orb_true_iff, !String.eqb_eq.
  intros [H|[H|[H|[H|[H|H]]]]]; try discriminate; subst contentType;
    split; reflexivity.
Qed.

Lemma process_part_html (b : Bodies) (part : Part) :
  is_empty (htmlBody (process_part b part)) =
  is_empty (htmlBody b) && negb (is_html_body (Val part)).
Proof.
  destruct part as [contentType contentID body|filename contentType body];
    [|simpl; rewrite andb_true_r; reflexivity].
  unfold process_part, is_html_body.
  destruct (String.eqb contentType "text/plain") eqn:E1.
  { apply String.eqb_eq in E1. subst contentType. simpl.
    rewrite andb_true_r. destruct (is_empty (textBody b)); reflexivity. }
  destruct (String.eqb contentType "text/html") eqn:E2.
  { destruct (is_empty (htmlBody b)) eqn:Hb; simpl; [|exact Hb].
    destruct (is_empty body); reflexivity. }
  cbn [andb negb]. rewrite andb_true_r.
  destruct (existsb _ inline_images); [|reflexivity].
  destruct (is_empty (htmlBody b)) eqn:Hb; cbn [negb htmlBody]; [exact Hb|].
  apply ReplaceAll_nonempty; [exact Hb|reflexivity|reflexivity].
Qed.

Lemma process_part_text (b : Bodies) (part : Part) :
  is_empty (textBody (process_part b part)) =
  is_empty (textBody b) && negb (is_text_body (Val part)).
Proof.
  destruct part as [contentType contentID body|filename contentType body];
    [|simpl; rewrite andb_true_r; reflexivity].
  unfold process_part, is_text_body.
  destruct (String.eqb contentType "text/plain") eqn:E1.
  { destruct (is_empty (textBody b)) eqn:Hb; simpl; [|exact Hb].
    destruct (is_empty body); reflexivity. }
  cbn [andb negb]. rewrite andb_true_r.
  destruct (String.eqb contentType "text/html").
  { destruct (is_empty (htmlBody b)); reflexivity. }
  destruct (existsb _ inline_images); [|reflexivity].
  destruct (is_empty (htmlBody b)); reflexivity.
Qed.

(** After the walk, an HTML body was captured exactly when some inline
    text/html part had a body that is not empty; the same for plain text. *)
Lemma process_parts_bodies (parts : list (result Part)) (b b' : Bodies) :
  process_parts parts b = Val b' ->
  is_empty (htmlBody b') = is_empty (htmlBody b) && negb (existsb is_html_body parts) /\
  is_empty (textBody b') = is_empty (textBody b) && negb (existsb is_text_body parts).
Proof.
  revert b. induction parts as [|[part|e] parts IH]; intros b H; simpl in H.
  - injection H as <-. simpl. rewrite !andb_true_r. auto.
  - destruct (IH _ H) as [H1 H2].
    rewrite H1, H2, process_part_html, process_part_text.
    cbn [existsb]. rewrite !negb_orb, !andb_assoc. auto.
  - discriminate.
Qed.

(** The walk fails exactly when [NextPart] does. *)
Lemma process_parts_total (parts : list (result Part)) (b : Bodies) :
  all_read parts = true -> exists b', process_parts parts b = Val b'.
Proof.
  revert b. induction parts as [|[part|e] parts IH]; intros b H; simpl in *.
  - eauto.
  - apply IH, H.
  - discriminate.
Qed.

Lemma process_parts_app (ps qs : list (result Part)) (b b' : Bodies) :
  process_parts ps b = Val b' ->
  process_parts (ps ++ qs) b = process_parts qs b'.
Proof.
  revert b. induction ps as [|[part|e] ps IH]; intros b H; simpl in *.
  - injection H as <-. reflexivity.
  - apply IH, H.
  - discriminate.
Qed.

Section TransformFacts.

Context {fold_fns : Folding}.

Variable mail_CreateReader : string -> result Reader.
Variable token_endpoint : nat -> result string.
Variable send_endpoint : nat -> string -> string -> GraphMessage -> result (Z * string).

(** [processEmail_message] once the guard, the parser and the walk are
    through. *)
Lemma processEmail_message_walked (trans : EmailTransaction) (rd : Reader) (b : Bodies) :
  missing_fields trans = false ->
  mail_CreateReader (emailContent trans) = Val rd ->
  process_parts (rParts rd) (mkBodies EmptyString EmptyString []) = Val b ->
  processEmail_message mail_CreateReader trans =
  (let subject := if is_empty (rSubject rd) then "No Subject" else rSubject rd in
   if negb (is_empty (htmlBody b)) then
     Val (buildGraphMessage subject "HTML" (htmlBody b) (addresses (rTo rd))
            (addresses (rCc rd)) (classify_bcc rd (to trans)) (atts b))
   else if is_empty (textBody b) then Fail "email has no body content"
   else
     Val (buildGraphMessage subject "Text" (textBody b) (addresses (rTo rd))
            (addresses (rCc rd)) (classify_bcc rd (to trans)) (atts b))).
Proof.
  intros Hg Hrd Hw. unfold processEmail_message. rewrite Hg, Hrd, Hw.
  destruct (is_empty (htmlBody b)) eqn:Hh; cbn [negb].
  - destruct (is_empty (textBody b)); reflexivity.
  - rewrite Hh. reflexivity.
Qed.

(** A payload comes out of [processEmail_message] only after the guard, the
    parser and the walk went through. *)
Lemma processEmail_message_Val (trans : EmailTransaction) (gm : GraphMessage) :
  processEmail_message mail_CreateReader trans = Val gm ->
  missing_fields trans = false /\
  exists rd b,
    mail_CreateReader (emailContent trans) = Val rd /\
    process_parts (rParts rd) (mkBodies EmptyString EmptyString []) = Val b.
Proof.
  unfold processEmail_message. destruct (missing_fields trans); [discriminate|].
  destruct (mail_CreateReader (emailContent trans)) as [rd|e] eqn:Hrd; [|discriminate].
  destruct (process_parts _ _) as [b|e] eqn:Hw; [|discriminate].
  intros _. split; [reflexivity|]. exists rd, b. split; [reflexivity|exact Hw].
Qed.

(** An error before the payload is built ends [processEmail] without any
    call of the delivery client. *)
Lemma processEmail_no_message (trans : EmailTransaction) (e : string) (w : World) :
  processEmail_message mail_CreateReader trans = Fail e ->
  processEmail mail_CreateReader token_endpoint send_endpoint trans w = (Some e, w).
Proof. intros H. unfold processEmail. rewrite H. reflexivity. Qed.

Lemma classify_bcc_spec (rd : Reader) (rcpts : list string) (rcpt : string) :
  rcpt ∈ classify_bcc rd rcpts <->
  rcpt ∈ rcpts /\
  forall a, a ∈ addresses (rTo rd) ++ addresses (rCc rd) -> ToLower a <> ToLower rcpt.
Proof.
  unfold classify_bcc, rcptMap. rewrite list_elem_of_filter.
  split.
  - intros [Hnot Hin]. split; [exact Hin|].
    intros a Ha Heq. apply Hnot. apply elem_of_list_to_set, list_elem_of_fmap.
    exists a. split; [|exact Ha]. symmetry. exact Heq.
  - intros [Hin Hall]. split; [|exact Hin].
    intros Hmem. apply elem_of_list_to_set, list_elem_of_fmap in Hmem as (a & Heq & Ha).
    apply (Hall a Ha). symmetry. exact Heq.
Qed.

(** C6.  When [processEmail] builds a payload, a protocol recipient is in
    its bccRecipients exactly when it is a recipient of the transaction that
    no address of the parsed To and Cc headers equals under the
    case-insensitive comparison the code makes, equality of the two
    addresses lowered by [strings.ToLower]; so every recipient absent from
    both headers is classified Bcc. *)
Theorem C6_absent_recipients_are_bcc (trans : EmailTransaction) (rd : Reader)
    (gm : GraphMessage) (rcpt : string) :
  mail_CreateReader (emailContent trans) = Val rd ->
  processEmail_message mail_CreateReader trans = Val gm ->
  (mkRecipient rcpt ∈ bccRecipients gm <->
   rcpt ∈ to trans /\
   forall a, a ∈ addresses (rTo rd) ++ addresses (rCc rd) -> ToLower a <> ToLower rcpt).
Proof.
  intros Hrd Hgm.
  destruct (processEmail_message_Val _ _ Hgm) as (Hg & rd' & b & Hrd' & Hw).
  assert (rd' = rd) by congruence. subst rd'.
  rewrite (processEmail_message_walked _ _ _ Hg Hrd Hw) in Hgm. cbv zeta in Hgm.
  assert (Hbcc : bccRecipients gm = buildRecipients (classify_bcc rd (to trans))).
  { destruct (negb (is_empty (htmlBody b))); [injection Hgm as <-; reflexivity|].
    destruct (is_empty (textBody b)); [discriminate|injection Hgm as <-; reflexivity]. }
  rewrite Hbcc, <- classify_bcc_spec. unfold buildRecipients.
  rewrite list_elem_of_fmap. split.
  - intros (y & Heq & Hy). injection Heq as ->. exact Hy.
  - intros Hin. exists rcpt. auto.
Qed.


(** C5, as amended.  The reference cid:<id> is replaced only in the HTML body
    captured from the parts that come before the image part in the MIME walk.
    Walking one more image part after any prefix rewrites the HTML body
    captured so far with [ReplaceAll] and changes nothing when none was
    captured; so for a message of an HTML part followed by the image part
    the body of the payload is the HTML with every cid:<id> replaced by
    data:<type>;base64,<payload>, and for the same parts with the image first
    it is the HTML part as it came, reference included. *)
Theorem C5_cid_replaced_when_image_follows_html (trans : EmailTransaction) (rd : Reader)
    (anyID h contentType contentID img : string) :
  missing_fields trans = false ->
  mail_CreateReader (emailContent trans) = Val rd ->
  is_empty h = false ->
  existsb (String.eqb contentType) inline_images = true ->
  let html := Val (InlinePart "text/html" anyID h) in
  let image := Val (InlinePart contentType contentID img) in
  let oldRef := "cid:" +:+ Trim contentID "<>" in
  let newRef := "data:" +:+ contentType +:+ ";base64," +:+ EncodeToString img in
  (forall parts b0 b, process_parts parts b0 = Val b ->
     process_parts (parts ++ [image]) b0 =
     Val (if is_empty (htmlBody b) then b
          else mkBodies (textBody b) (ReplaceAll (htmlBody b) oldRef newRef) (atts b))) /\
  (rParts rd = [html; image] ->
   exists gm, processEmail_message mail_CreateReader trans = Val gm /\
     bodyContentType gm = "HTML" /\ bodyContent gm = ReplaceAll h oldRef newRef) /\
  (rParts rd = [image; html] ->
   exists gm, processEmail_message mail_CreateReader trans = Val gm /\
     bodyContentType gm = "HTML" /\ bodyContent gm = h).
Proof.
  intros Hg Hrd Hh Himg html image oldRef newRef.
  destruct (image_not_text _ Himg) as [E1 E2].
  assert (Hstep : forall b, process_part b (InlinePart contentType contentID img) =
            if is_empty (htmlBody b) then b
            else mkBodies (textBody b) (ReplaceAll (htmlBody b) oldRef newRef) (atts b)).
  { intros b. unfold process_part. rewrite E1, E2, Himg.
    destruct (is_empty (htmlBody b)); reflexivity. }
  split; [|split].
  - intros parts b0 b Hw. rewrite (process_parts_app _ _ _ _ Hw).
    unfold image. cbn [process_parts]. rewrite Hstep. reflexivity.
  - intros Hparts.
    assert (Hw : process_parts (rParts rd) (mkBodies EmptyString EmptyString []) =
                 Val (mkBodies EmptyString (ReplaceAll h oldRef newRef) [])).
    { rewrite Hparts. unfold html, image. cbn [process_parts]. rewrite Hstep.
      cbn. rewrite Hh. reflexivity. }
    pose proof (processEmail_message_walked _ _ _ Hg Hrd Hw) as Hmsg.
    cbv zeta in Hmsg. cbn [htmlBody] in Hmsg.
    rewrite ReplaceAll_nonempty in Hmsg by (exact Hh || reflexivity).
    eexists. split; [exact Hmsg|]. auto.
  - intros Hparts.
    assert (Hw : process_parts (rParts rd) (mkBodies EmptyString EmptyString []) =
                 Val (mkBodies EmptyString h [])).
    { rewrite Hparts. unfold html, image. cbn [process_parts]. rewrite Hstep.
      reflexivity. }
    pose proof (processEmail_message_walked _ _ _ Hg Hrd Hw) as Hmsg.
    cbv zeta in Hmsg. cbn [htmlBody] in Hmsg. rewrite Hh in Hmsg.
    eexists. split; [exact Hmsg|]. auto.
Qed.

End TransformFacts.

(** ** The delivery client *)

Section DeliveryFacts.

Variable token_endpoint : nat -> result string.
Variable send_endpoint : nat -> string -> string -> GraphMessage -> result (Z * string).

Lemma doSendMail_calls (sender : string) (payload : GraphMessage) (w : World) :
  calls (doSendMail token_endpoint send_endpoint sender payload w).2 = S (calls w) /\
  sleeps (doSendMail token_endpoint send_endpoint sender payload w).2 = sleeps w.
Proof.
  unfold doSendMail. destruct (token_endpoint (calls w)) as [token|e]; [|auto].
  destruct (send_endpoint _ _ _ _) as [[status body]|e]; [|auto].
  destruct (status =? 202)%Z; auto.
Qed.

(** The loop calls [doSendMail] at most once per iteration and sleeps before
    every iteration but the first. *)
Lemma sendMail_loop_bound (remaining : nat) (attempt : Z) (lastErr sender : string)
    (payload : GraphMessage) (w : World) :
  let w' := (sendMail_loop token_endpoint send_endpoint remaining attempt lastErr
               sender payload w).2 in
  calls w <= calls w' <= calls w + remaining.
Proof.
  revert attempt lastErr w. induction remaining as [|n IH]; intros attempt lastErr w; simpl.
  - lia.
  - set (w1 := if (0 <? attempt)%Z then _ else w).
    assert (Hw1 : calls w1 = calls w) by (unfold w1; destruct (0 <? attempt)%Z; reflexivity).
    pose proof (doSendMail_calls sender payload w1) as [Hc _].
    destruct (doSendMail _ _ sender payload w1) as [[err|] w2]; simpl in *; [|lia].
    destruct (Contains err "MailboxInfoStale"); simpl; [|lia].
    specialize (IH (attempt + 1)%Z err w2). simpl in IH. lia.
Qed.

(** [sendMail] makes at most three attempts. *)
Lemma sendMail_attempts (sender : string) (payload : GraphMessage) (w : World) :
  calls (sendMail token_endpoint send_endpoint sender payload w).2 <= calls w + 3.
Proof. apply (sendMail_loop_bound maxRetries 0). Qed.

(** A failure without the transient marker ends [sendMail] at once. *)
Lemma sendMail_permanent (sender : string) (payload : GraphMessage) (w w' : World)
    (err : string) :
  doSendMail token_endpoint send_endpoint sender payload w = (Some err, w') ->
  Contains err "MailboxInfoStale" = false ->
  sendMail token_endpoint send_endpoint sender payload w = (Some err, w').
Proof.
  intros Hd Hc. unfold sendMail. simpl. rewrite Hd, Hc. reflexivity.
Qed.

(** Two transient failures and a success: [sendMail] returns nil after
    sleeping before the second and before the third attempt, for
    [time.Second * (1 << 1)] and [time.Second * (1 << 2)]. *)
Lemma sendMail_two_stale (sender : string) (payload : GraphMessage)
    (w0 w1 w2 w3 : World) (e1 e2 : string) :
  let slept w d := mkWorld (calls w) (sleeps w ++ [d]) (posts w) in
  doSendMail token_endpoint send_endpoint sender payload w0 = (Some e1, w1) ->
  Contains e1 "MailboxInfoStale" = true ->
  doSendMail token_endpoint send_endpoint sender payload (slept w1 (2 * time_Second)%Z)
    = (Some e2, w2) ->
  Contains e2 "MailboxInfoStale" = true ->
  doSendMail token_endpoint send_endpoint sender payload (slept w2 (4 * time_Second)%Z)
    = (None, w3) ->
  sendMail token_endpoint send_endpoint sender payload w0 = (None, w3).
Proof.
  intros slept H1 C1 H2 C2 H3. unfold sendMail, maxRetries, slept in *.
  cbn [sendMail_loop]. change (0 <? 0)%Z with false. cbv iota.
  rewrite H1, C1. cbn [negb].
  change (0 <? 0 + 1)%Z with true. cbv iota.
  change (time_Second * Z.shiftl 1 (0 + 1))%Z with (2 * time_Second)%Z.
  rewrite H2, C2. cbn [negb].
  change (0 <? 0 + 1 + 1)%Z with true. cbv iota.
  change (time_Second * Z.shiftl 1 (0 + 1 + 1))%Z with (4 * time_Second)%Z.
  rewrite H3. reflexivity.
Qed.

End DeliveryFacts.

(** ** When a call does not return nil *)

(** Whenever [Logout] returns an error, the session and the whole store,
    the row of the current key included, are as before the call. *)
Lemma Logout_error_keeps_store {fold_fns : Folding}
    (mail_CreateReader : string -> result Reader)
    (token_endpoint : nat -> result string)
    (send_endpoint : nat -> string -> string -> GraphMessage -> result (Z * string))
    (s s' : Session) (tm tm' : TransactionManager) (w w' : World) (err : string) :
  Logout mail_CreateReader token_endpoint send_endpoint s tm w = (Err err, s', tm', w') ->
  s' = s /\ tm' = tm /\
  exists trans, transactions tm !! currentKey s = Some trans /\
    processEmail mail_CreateReader token_endpoint send_endpoint trans w = (Some err, w').
Proof.
  unfold Logout. destruct (is_empty (currentKey s)); [discriminate|].
  destruct (transactions tm !! currentKey s) as [trans|]; [|discriminate].
  destruct (processEmail _ _ _ trans w) as [[e|] w1] eqn:Hp; [|discriminate].
  intros [= <- <- <- <-]. eauto.
Qed.

(** With a current key, a readable and parsable message, and no row under
    the current key nor under the subject-qualified key, [Data] panics. *)
Lemma Data_missing_row_panics {fold_fns : Folding}
    (message_Read : string -> result Entity)
    (s : Session) (tm : TransactionManager) (bytes : string) (msg : Entity) (now : Z) :
  is_empty (currentKey s) = false ->
  message_Read bytes = Val msg ->
  transactions tm !! currentKey s = None ->
  transactions tm !! finalKey_of s msg = None ->
  Data message_Read s tm (ReadAll bytes) now = (Panic "nil pointer dereference", s, tm).
Proof.
  intros Hk Hread Hrow Hfinal. unfold Data. rewrite Hk, Hread, Hrow.
  fold (finalKey_of s msg). rewrite Hfinal. reflexivity.
Qed.

(** ** The statements on concrete connections *)

Section OnConnections.

#[local] Existing Instance Scenario.ascii_folding.

(** C1.  MAIL, RCPT, DATA and QUIT against a send endpoint that answers 500:
    [Logout] returns the delivery error, and the row and its timestamp are
    still in the store under the session's key when it returns. *)
Theorem C1_failed_quit_keeps_row :
  Scenario.rejected_quit.1 =
    [Nil; Nil; Nil; Err "failed to send email: graph API error: InternalServerError"] /\
  currentKey (session Scenario.rejected_quit.2) = "s1:a@co:Hi" /\
  transactions (store Scenario.rejected_quit.2) !! "s1:a@co:Hi" =
    Some (mkTrans "a@co" ["b@co"] [] [] [Scenario.raw_hi]) /\
  timeouts (store Scenario.rejected_quit.2) !! "s1:a@co:Hi" = Some 300%Z.
Proof. vm_compute. auto. Qed.

(** C2.  The send endpoint fails twice with the transient marker and then
    accepts: [sendMail] returns nil after three attempts, and the two sleeps
    are of 2 and 4 seconds, not of 1 and 2. *)
Theorem C2_backoff_sleeps_two_then_four :
  let r := sendMail Scenario.token_ok Scenario.send_stale_twice "a@co" Scenario.note World0 in
  r.1 = None /\ calls r.2 = 3 /\
  sleeps r.2 = [2 * time_Second; 4 * time_Second]%Z /\
  sleeps r.2 <> [1 * time_Second; 2 * time_Second]%Z.
Proof. vm_compute. repeat split; discriminate. Qed.

(** C3, the claim as stated fails.  After MAIL the session holds a row under
    its key; a second MAIL returns nil and that row is still in the store. *)
Lemma C3_prior_row_survives_mail :
  transactions (store Scenario.mail_only) !! currentKey (session Scenario.mail_only) =
    Some (newTransaction "a@co") /\
  Scenario.mail_twice.1 = [Nil; Nil] /\
  currentKey (session Scenario.mail_twice.2) = "s1:c@co:200" /\
  transactions (store Scenario.mail_twice.2) !! currentKey (session Scenario.mail_only) =
    Some (newTransaction "a@co") /\
  transactions (store Scenario.mail_twice.2) !! currentKey (session Scenario.mail_only) <> None.
Proof. vm_compute. repeat split; discriminate. Qed.

(** C4, the claim as stated fails.  After MAIL alone the row has no
    recipient; DATA returns nil all the same and the row, under its new key,
    holds the message as one segment. *)
Lemma C4_data_without_recipient_succeeds :
  (to <$> transactions (store Scenario.mail_only) !! currentKey (session Scenario.mail_only))
    = Some [] /\
  Scenario.data_without_rcpt.1 = [Nil; Nil] /\
  transactions (store Scenario.data_without_rcpt.2)
    !! currentKey (session Scenario.data_without_rcpt.2) =
    Some (mkTrans "a@co" [] [] [] [Scenario.raw_no_to]).
Proof. vm_compute. auto. Qed.

(** C5, the claim as stated fails.  The same HTML part and image part in the
    two orders give two different bodies: with the image first the reference
    cid:img1 is still in the body. *)
Lemma C5_image_before_html_not_replaced :
  processEmail_message Scenario.mail_CreateReader (Scenario.picture Scenario.raw_image_first)
    = Val Scenario.image_first_message /\
  Contains (bodyContent Scenario.image_first_message) "cid:img1" = true /\
  processEmail_message Scenario.mail_CreateReader (Scenario.picture Scenario.raw_html_first)
    = Val Scenario.html_first_message /\
  Contains (bodyContent Scenario.html_first_message) "cid:img1" = false /\
  bodyContent Scenario.image_first_message <> bodyContent Scenario.html_first_message.
Proof. vm_compute. repeat split; discriminate. Qed.

(** C10.  The sweep of the reclamation task removed the row while the
    session still holds its key: [Rcpt] answers with an error, [Data] passes
    a nil pointer to [processEmailContent] and panics. *)
Theorem C10_data_panics_on_reclaimed_row :
  currentKey (session Scenario.after_sweep) = "s1:a@co:100" /\
  transactions (store Scenario.after_sweep) !! "s1:a@co:100" = None /\
  (Rcpt (session Scenario.after_sweep) (store Scenario.after_sweep) "c@co"
     (6 * time_Minute + 1)).1.1 = Err "transaction not found" /\
  (Data Scenario.message_Read (session Scenario.after_sweep) (store Scenario.after_sweep)
     (ReadAll Scenario.raw_hi) (6 * time_Minute + 1)).1.1 = Panic "nil pointer dereference".
Proof. vm_compute. auto. Qed.

(** ** The statements applied to the concrete connections *)

Lemma C4_witness :
  exists s' tm' t',
    Data Scenario.message_Read (session Scenario.mail_only) (store Scenario.mail_only)
      (ReadAll Scenario.raw_no_to) 300 = (Nil, s', tm') /\
    currentKey s' = "s1:a@co:Hi" /\
    transactions tm' !! currentKey s' = Some t' /\
    to t' = [] /\ dataBuffers t' = [Scenario.raw_no_to].
Proof.
  destruct (proj2 (proj2 (proj2
      (C4_data_accepts_any_recipient_count Scenario.message_Read
         (session Scenario.mail_only) (store Scenario.mail_only)
         (ReadAll Scenario.raw_no_to) 300)))
      eq_refl Scenario.raw_no_to (mkEntity "Hi" (Some []) (Some []))
      (newTransaction "a@co") eq_refl eq_refl)
    as (s' & tm' & t' & HD & Hkey & Hrow & _ & _ & Hto & Hbuf).
  - vm_compute. reflexivity.
  - vm_compute. discriminate.
  - exists s', tm', t'. repeat split; assumption.
Defined.

Lemma C5_witness :
  exists gm,
    processEmail_message Scenario.mail_CreateReader (Scenario.picture Scenario.raw_html_first)
      = Val gm /\
    bodyContentType gm = "HTML" /\
    bodyContent gm =
      ReplaceAll Scenario.html_page "cid:img1" "data:image/png;base64,aGk=".
Proof.
  apply (proj1 (proj2
    (C5_cid_replaced_when_image_follows_html Scenario.mail_CreateReader
       (Scenario.picture Scenario.raw_html_first) Scenario.html_first_reader
       EmptyString Scenario.html_page "image/png" "<img1>" "hi"
       eq_refl eq_refl eq_refl eq_refl))).
  reflexivity.
Defined.

Lemma C6_witness : mkRecipient "b@x" ∈ bccRecipients Scenario.two_rcpts_message.
Proof.
  apply (C6_absent_recipients_are_bcc Scenario.mail_CreateReader Scenario.two_rcpts
           (mkReader "Hi" (Some ["a@x"]) (Some []) 
              [Val (InlinePart "text/plain" EmptyString ("hello" +:+ Scenario.crlf))])
           Scenario.two_rcpts_message "b@x").
  - vm_compute. reflexivity.
  - vm_compute. reflexivity.
  - split.
    + simpl. apply list_elem_of_further, list_elem_of_here.
    + simpl. intros a Ha. apply list_elem_of_singleton in Ha. subst a.
      vm_compute. discriminate.
Defined.


Lemma C8_witness :
  store_distinct
    (store (step Scenario.message_Read Scenario.mail_CreateReader Scenario.token_ok
              Scenario.send_accept Scenario.conn0 (MAIL "a@co" 100 100)).2) /\
  exists e,
    transactions (store Scenario.rcpt_variants.2)
      !! currentKey (session Scenario.rcpt_variants.2) = Some e /\
    to e = ["b@co"; "c@co"] /\ fold_distinct (to e) = true.
Proof.
  pose proof (C8_recipients_distinct_first_seen Scenario.message_Read
                Scenario.mail_CreateReader Scenario.token_ok Scenario.send_accept)
    as [Hstep Hrcpt].
  split.
  - apply Hstep. apply map_Forall_empty.
  - destruct (Hrcpt EqualFold_ascii_trans Scenario.conn0 "a@co" 100%Z 100%Z
                [("b@co", 200%Z); ("B@CO", 300%Z); ("c@co", 400%Z); ("B@co", 500%Z)])
      as (_ & e & Hrow & Hto & Hd).
    exists e. repeat split; assumption.
Defined.

Lemma C9_witness :
  let c := (run Scenario.message_Read Scenario.mail_CreateReader Scenario.token_ok
              Scenario.send_accept Scenario.conn0 Scenario.no_mail).2 in
  Rcpt (session c) (store c) "c@co" 70 = (Err "no active transaction", session c, store c) /\
  store c = NewTransactionManager.
Proof.
  apply (C9_rcpt_before_mail Scenario.message_Read Scenario.mail_CreateReader
           Scenario.token_ok Scenario.send_accept "s1" NewTransactionManager World0
           Scenario.no_mail "c@co" 70).
  reflexivity.
Defined.

End OnConnections.

(** * Further properties of the code *)

(** ** The reclamation sweeps *)

Lemma TM_eq (tm1 tm2 : TransactionManager) :
  transactions tm1 = transactions tm2 -> timeouts tm1 = timeouts tm2 -> tm1 = tm2.
Proof. destruct tm1, tm2. simpl. intros -> ->. reflexivity. Qed.

Lemma cleanup_sweep (tm : TransactionManager) (now : Z) :
  cleanup tm now = sweep (5 * time_Minute) tm now.
Proof. reflexivity. Qed.

Lemma startCleanupRoutine_sweep (tm : TransactionManager) (now : Z) :
  startCleanupRoutine tm now = sweep (2 * time_Minute) tm now.
Proof. reflexivity. Qed.

(** Deleting a list of keys from both maps. *)
Lemma delete_keys_lookup (l : list (string * Z)) (tm : TransactionManager) (k : string) :
  let swept :=
    foldr (fun kt m => mkTM (delete kt.1 (transactions m)) (delete kt.1 (timeouts m)))
          tm l in
  transactions swept !! k = (if bool_decide (k ∈ l.*1) then None else transactions tm !! k) /\
  timeouts swept !! k = (if bool_decide (k ∈ l.*1) then None else timeouts tm !! k).
Proof.
  induction l as [|[k' t'] l IH]; [simpl; auto|].
  cbn [foldr transactions timeouts fst]. rewrite fmap_cons. cbn [fst].
  - destruct IH as [IH1 IH2]. rewrite !lookup_delete.
    destruct (decide (k' = k)) as [->|Hne].
    + rewrite bool_decide_eq_true_2 by apply list_elem_of_here. auto.
    + assert (Hb : bool_decide (k ∈ k' :: l.*1) = bool_decide (k ∈ l.*1)).
      { apply bool_decide_ext. rewrite elem_of_cons.
        split; [intros [Heq|Hin]; [congruence|exact Hin]|auto]. }
      rewrite IH1, IH2, Hb. auto.
Qed.

(** What a sweep leaves under a key. *)
Lemma sweep_lookup (threshold : Z) (tm : TransactionManager) (now : Z) (k : string) :
  transactions (sweep threshold tm now) !! k =
    match timeouts tm !! k with
    | Some t => if (threshold <? now - t)%Z then None else transactions tm !! k
    | None => transactions tm !! k
    end /\
  timeouts (sweep threshold tm now) !! k =
    match timeouts tm !! k with
    | Some t => if (threshold <? now - t)%Z then None else Some t
    | None => None
    end.
Proof.
  unfold sweep.
  set (l := filter _ (map_to_list (timeouts tm))).
  destruct (delete_keys_lookup l tm k) as [H1 H2]. rewrite H1, H2.
  assert (Hin : k ∈ l.*1 <->
            exists t, timeouts tm !! k = Some t /\ (threshold <? now - t)%Z = true).
  { unfold l. rewrite list_elem_of_fmap. split.
    - intros ([k' t] & -> & Hkt). apply list_elem_of_filter in Hkt as [HP Hkt].
      apply elem_of_map_to_list in Hkt. simpl in *.
      exists t. split; [exact Hkt|]. apply Is_true_true, HP.
    - intros (t & Ht & HP). exists (k, t). split; [reflexivity|].
      apply list_elem_of_filter. split; [apply Is_true_true, HP|].
      apply elem_of_map_to_list, Ht. }
  destruct (timeouts tm !! k) as [t|] eqn:Ht.
  - destruct (threshold <? now - t)%Z eqn:HP.
    + rewrite bool_decide_eq_true_2 by (apply Hin; eauto). auto.
    + rewrite bool_decide_eq_false_2; [auto|].
      intros (t' & Ht' & HP')%Hin. congruence.
  - rewrite bool_decide_eq_false_2; [auto|].
    intros (t' & Ht' & _)%Hin. discriminate.
Qed.

(** X1.  A sweep of [cleanup] removes a key from both maps when its
    timestamp is more than five minutes old, and leaves the row and the
    timestamp of every other key as they are; a row without a timestamp is
    never removed. *)
Theorem cleanup_removes_exactly_stale (tm : TransactionManager) (now : Z) (k : string) :
  (forall t, timeouts tm !! k = Some t -> (5 * time_Minute < now - t)%Z ->
     transactions (cleanup tm now) !! k = None /\
     timeouts (cleanup tm now) !! k = None) /\
  ((forall t, timeouts tm !! k = Some t -> (now - t <= 5 * time_Minute)%Z) ->
     transactions (cleanup tm now) !! k = transactions tm !! k /\
     timeouts (cleanup tm now) !! k = timeouts tm !! k).
Proof.
  change (cleanup tm now) with (sweep (5 * time_Minute) tm now).
  destruct (sweep_lookup (5 * time_Minute) tm now k) as [H1 H2]. rewrite H1, H2.
  split.
  - intros t Ht Hstale. rewrite Ht.
    apply Z.ltb_lt in Hstale. rewrite Hstale. auto.
  - intros Hfresh. destruct (timeouts tm !! k) as [t|]; [|auto].
    specialize (Hfresh t eq_refl). apply Z.ltb_ge in Hfresh. rewrite Hfresh. auto.
Qed.

(** X2.  A sweep followed by a later sweep leaves what the later sweep alone
    leaves; in particular sweeping twice at the same time is sweeping
    once. *)
Theorem cleanup_later_absorbs (tm : TransactionManager) (t1 t2 : Z) :
  (t1 <= t2)%Z -> cleanup (cleanup tm t1) t2 = cleanup tm t2.
Proof.
  intros Hle.
  change (sweep (5 * time_Minute) (sweep (5 * time_Minute) tm t1) t2 =
          sweep (5 * time_Minute) tm t2).
  apply TM_eq; apply map_eq; intros k.
  - rewrite (proj1 (sweep_lookup _ (sweep _ tm t1) t2 k)).
    rewrite (proj2 (sweep_lookup _ tm t1 k)), (proj1 (sweep_lookup _ tm t1 k)),
      (proj1 (sweep_lookup _ tm t2 k)).
    destruct (timeouts tm !! k) as [t|]; [|reflexivity].
    destruct (5 * time_Minute <? t1 - t)%Z eqn:E1, (5 * time_Minute <? t2 - t)%Z eqn:E2;
      rewrite ?E2; try reflexivity.
    apply Z.ltb_lt in E1. apply Z.ltb_ge in E2. lia.
  - rewrite (proj2 (sweep_lookup _ (sweep _ tm t1) t2 k)).
    rewrite (proj2 (sweep_lookup _ tm t1 k)), (proj2 (sweep_lookup _ tm t2 k)).
    destruct (timeouts tm !! k) as [t|]; [|reflexivity].
    destruct (5 * time_Minute <? t1 - t)%Z eqn:E1, (5 * time_Minute <? t2 - t)%Z eqn:E2;
      rewrite ?E2; try reflexivity.
    apply Z.ltb_lt in E1. apply Z.ltb_ge in E2. lia.
Qed.

(** X3.  The sweep of [startCleanupRoutine] uses two minutes where [cleanup]
    uses five: whatever survives it survives the sweep of [cleanup] at the
    same time, and a row whose timestamp is between two and five minutes old
    is removed by the first and kept by the second. *)
Theorem startCleanupRoutine_stricter (tm : TransactionManager) (now : Z) (k : string) :
  (forall e, transactions (startCleanupRoutine tm now) !! k = Some e ->
     transactions (cleanup tm now) !! k = Some e) /\
  (forall t, timeouts (startCleanupRoutine tm now) !! k = Some t ->
     timeouts (cleanup tm now) !! k = Some t) /\
  (forall t, timeouts tm !! k = Some t ->
     (2 * time_Minute < now - t <= 5 * time_Minute)%Z ->
     transactions (startCleanupRoutine tm now) !! k = None /\
     transactions (cleanup tm now) !! k = transactions tm !! k).
Proof.
  change (cleanup tm now) with (sweep (5 * time_Minute) tm now).
  change (startCleanupRoutine tm now) with (sweep (2 * time_Minute) tm now).
  destruct (sweep_lookup (5 * time_Minute) tm now k) as [H1 H2].
  destruct (sweep_lookup (2 * time_Minute) tm now k) as [H3 H4].
  rewrite H1, H2, H3, H4. clear H1 H2 H3 H4.
  assert (Hmono : forall t, (5 * time_Minute <? now - t)%Z = true ->
                            (2 * time_Minute <? now - t)%Z = true).
  { intros t H. apply Z.ltb_lt in H. apply Z.ltb_lt. unfold time_Minute, time_Second in *. lia. }
  split; [|split].
  - intros e. destruct (timeouts tm !! k) as [t|]; [|auto].
    destruct (5 * time_Minute <? now - t)%Z eqn:E5.
    + rewrite (Hmono t E5). discriminate.
    + destruct (2 * time_Minute <? now - t)%Z; [discriminate|auto].
  - intros t'. destruct (timeouts tm !! k) as [t|]; [|auto].
    destruct (5 * time_Minute <? now - t)%Z eqn:E5.
    + rewrite (Hmono t E5). discriminate.
    + destruct (2 * time_Minute <? now - t)%Z; [discriminate|auto].
  - intros t Ht [Hlo Hhi]. rewrite Ht.
    apply Z.ltb_lt in Hlo. apply Z.ltb_ge in Hhi. rewrite Hlo, Hhi. auto.
Qed.

Lemma delete_keys_coherent (l : list (string * Z)) (tm : TransactionManager) :
  store_coherent tm ->
  store_coherent
    (foldr (fun kt m => mkTM (delete kt.1 (transactions m)) (delete kt.1 (timeouts m)))
           tm l).
Proof.
  unfold store_coherent. intros H. induction l as [|kt l IH]; simpl; [exact H|].
  rewrite !dom_delete_L, IH. reflexivity.
Qed.

Lemma store_coherent_lookup (tm : TransactionManager) (k : string) :
  store_coherent tm ->
  (is_Some (transactions tm !! k) <-> is_Some (timeouts tm !! k)).
Proof. unfold store_coherent. intros H. rewrite <- !elem_of_dom, H. reflexivity. Qed.

Section StoreFacts.

Context {fold_fns : Folding}.

Variable message_Read : string -> result Entity.
Variable mail_CreateReader : string -> result Reader.
Variable token_endpoint : nat -> result string.
Variable send_endpoint : nat -> string -> string -> GraphMessage -> result (Z * string).

Local Abbreviation step := (step message_Read mail_CreateReader token_endpoint send_endpoint).
Local Abbreviation run := (run message_Read mail_CreateReader token_endpoint send_endpoint).

Lemma step_store_coherent (c : Conn) (cmd : Command) :
  store_coherent (store c) -> store_coherent (store (step c cmd).2).
Proof.
  unfold store_coherent. intros H. destruct c as [s tm w]. simpl in H.
  destruct cmd as [f t now|rcpt now|r now| |]; simpl.
  - rewrite !dom_insert_L, H. reflexivity.
  - unfold Rcpt. destruct (is_empty (currentKey s)); [exact H|].
    destruct (transactions tm !! currentKey s); [|exact H].
    simpl. rewrite !dom_insert_L, H. reflexivity.
  - unfold Data. destruct (is_empty (currentKey s)); [exact H|].
    destruct r as [bytes|e]; [|exact H].
    destruct (message_Read bytes) as [msg|e]; [|exact H].
    fold (finalKey_of s msg).
    set (moved := match transactions tm !! currentKey s with
                  | Some trans => _ | None => (s, tm) end).
    assert (Hmoved : dom (transactions moved.2) = dom (timeouts moved.2)).
    { unfold moved. destruct (transactions tm !! currentKey s); [|exact H].
      simpl. rewrite !dom_delete_L, !dom_insert_L, H. reflexivity. }
    destruct moved as [s1 tm1]. simpl in Hmoved.
    destruct (transactions tm1 !! finalKey_of s msg) as [e|] eqn:He; simpl; [|exact Hmoved].
    rewrite dom_insert_lookup_L by (rewrite He; eauto). exact Hmoved.
  - unfold Reset. destruct (is_empty (currentKey s)); simpl; [exact H|].
    rewrite !dom_delete_L, H. reflexivity.
  - unfold Logout. destruct (is_empty (currentKey s)); [exact H|].
    destruct (transactions tm !! currentKey s) as [e|]; [|exact H].
    destruct (processEmail _ _ _ e w) as [[err|] w']; simpl; [exact H|].
    rewrite !dom_delete_L, H. reflexivity.
Qed.

(** X4.  The two maps of the store keep naming the same keys under every
    command and under both sweeps; so every row has a timestamp, and a sweep
    of [cleanup] more than five minutes after it removes the row. *)
Theorem store_stays_coherent (c : Conn) :
  store_coherent (store c) ->
  (forall cmd, store_coherent (store (step c cmd).2)) /\
  (forall now, store_coherent (cleanup (store c) now)) /\
  (forall now, store_coherent (startCleanupRoutine (store c) now)) /\
  (forall k e, transactions (store c) !! k = Some e ->
     exists t, timeouts (store c) !! k = Some t /\
       forall now, (t + 5 * time_Minute < now)%Z ->
         transactions (cleanup (store c) now) !! k = None).
Proof.
  intros H. repeat split.
  - intros cmd. apply step_store_coherent, H.
  - intros now. apply delete_keys_coherent, H.
  - intros now. apply delete_keys_coherent, H.
  - intros k e He.
    destruct (proj1 (store_coherent_lookup _ k H)) as [t Ht]; [rewrite He; eauto|].
    exists t. split; [exact Ht|]. intros now Hnow.
    change (cleanup (store c) now) with (sweep (5 * time_Minute) (store c) now).
    rewrite (proj1 (sweep_lookup _ _ _ k)), Ht.
    replace (5 * time_Minute <? now - t)%Z with true; [reflexivity|].
    symmetry. apply Z.ltb_lt. lia.
Qed.

End StoreFacts.

(** ** More on the session methods *)

Lemma key_nonempty (a b : string) : is_empty (a +:+ ":" +:+ b) = false.
Proof. destruct a; reflexivity. Qed.

Lemma append_cancel (a x y : string) : a +:+ x = a +:+ y -> x = y.
Proof. induction a as [|c a IH]; simpl; [auto|]. intros [= H]. auto. Qed.

Lemma format_int_inj (a b : Z) : format_int a = format_int b -> a = b.
Proof.
  unfold format_int. intros H.
  assert (Hnz : forall z, Z.to_int z <> Decimal.Pos Decimal.Nil /\
                          Z.to_int z <> Decimal.Neg Decimal.Nil).
  { intros z. split; intros Hz; pose proof (DecimalZ.of_to z) as Hof;
      rewrite Hz in Hof; simpl in Hof; subst z; discriminate Hz. }
  pose proof (NilZero.isi (Z.to_int a) (proj1 (Hnz a)) (proj2 (Hnz a))) as Ha.
  pose proof (NilZero.isi (Z.to_int b) (proj1 (Hnz b)) (proj2 (Hnz b))) as Hb.
  rewrite H in Ha. rewrite Ha in Hb. injection Hb as Hb.
  rewrite <- (DecimalZ.of_to a), <- (DecimalZ.of_to b), Hb. reflexivity.
Qed.

Lemma HasPrefix_append (a b c : string) : HasPrefix (a +:+ b) (a +:+ c) = HasPrefix b c.
Proof.
  induction a as [|x a IH]; simpl; [reflexivity|].
  rewrite IH, Ascii.eqb_refl. reflexivity.
Qed.

Lemma HasPrefix_key (sid rest : string) : HasPrefix (sid +:+ ":" +:+ rest) (sid +:+ ":") = true.
Proof. rewrite HasPrefix_append. simpl. destruct rest; reflexivity. Qed.

Section SessionMore.

Context {fold_fns : Folding}.

Variable message_Read : string -> result Entity.
Variable mail_CreateReader : string -> result Reader.
Variable token_endpoint : nat -> result string.
Variable send_endpoint : nat -> string -> string -> GraphMessage -> result (Z * string).

Local Abbreviation step := (step message_Read mail_CreateReader token_endpoint send_endpoint).
Local Abbreviation run := (run message_Read mail_CreateReader token_endpoint send_endpoint).

(** X5.  [Reset] clears the key and the sender of the session, removes the
    row and the timestamp of the key it held and nothing else; after it RCPT
    and DATA are refused until the next MAIL. *)
Theorem Reset_discards_current (s : Session) (tm : TransactionManager) :
  let s' := (Reset s tm).1 in
  let tm' := (Reset s tm).2 in
  s' = NewSession (sessionID s) /\
  (is_empty (currentKey s) = false ->
   transactions tm' !! currentKey s = None /\ timeouts tm' !! currentKey s = None) /\
  (forall k, k <> currentKey s ->
     transactions tm' !! k = transactions tm !! k /\
     timeouts tm' !! k = timeouts tm !! k) /\
  (forall rcpt now, Rcpt s' tm' rcpt now = (Err "no active transaction", s', tm')) /\
  (forall r now, Data message_Read s' tm' r now = (Err "no active transaction", s', tm')).
Proof.
  unfold Reset. cbn [fst snd]. split; [reflexivity|]. split; [|split; [|split]].
  - intros Hk. rewrite Hk. cbn [transactions timeouts]. split; apply lookup_delete_eq.
  - intros k Hne. destruct (is_empty (currentKey s)); [auto|].
    cbn [transactions timeouts]. split; apply lookup_delete_ne; congruence.
  - reflexivity.
  - reflexivity.
Qed.

(** X6.  MAIL followed by RSET is a round trip on the store when the key of
    the new transaction was free: the store is as it was before MAIL and the
    session is back to its initial state. *)
Theorem Mail_Reset_round_trip (s : Session) (tm : TransactionManager) (f : string)
    (transactionTime now : Z) :
  let key := sessionID s +:+ ":" +:+ f +:+ ":" +:+ format_int transactionTime in
  transactions tm !! key = None ->
  timeouts tm !! key = None ->
  Reset (Mail s tm f transactionTime now).1.2 (Mail s tm f transactionTime now).2 =
  (NewSession (sessionID s), tm).
Proof.
  intros key H1 H2. unfold Mail, Reset. cbn [fst snd currentKey sessionID transactions timeouts].
  fold key. unfold key at 1. rewrite key_nonempty. fold key.
  rewrite !delete_insert_eq, (delete_id _ _ H1), (delete_id _ _ H2).
  destruct tm. reflexivity.
Qed.

(** X7.  RCPT with an address the row already holds up to case changes no
    row: it returns nil and only refreshes the timestamp of the key. *)
Theorem Rcpt_duplicate_refreshes (s : Session) (tm : TransactionManager)
    (e : EmailTransaction) (rcpt : string) (now : Z) :
  is_empty (currentKey s) = false ->
  transactions tm !! currentKey s = Some e ->
  existsb (fun r => EqualFold r rcpt) (to e) = true ->
  Rcpt s tm rcpt now =
  (Nil, s, mkTM (transactions tm) (<[currentKey s := now]> (timeouts tm))).
Proof.
  intros Hk He Hdup. rewrite (Rcpt_row s tm e rcpt now Hk He).
  unfold addRecipient. rewrite Hdup. rewrite (insert_id _ _ _ He). reflexivity.
Qed.

(** X8.  When the key built from the subject is the key the session already
    holds (a second DATA with the same subject, say), [Data] inserts the row
    under that key, deletes it again under the same key and panics on the
    nil pointer: the row and its timestamp are gone. *)
Theorem Data_same_key_drops_row (s : Session) (tm : TransactionManager) (bytes : string)
    (msg : Entity) (trans : EmailTransaction) (now : Z) :
  is_empty (currentKey s) = false ->
  message_Read bytes = Val msg ->
  transactions tm !! currentKey s = Some trans ->
  finalKey_of s msg = currentKey s ->
  exists s' tm',
    Data message_Read s tm (ReadAll bytes) now = (Panic "nil pointer dereference", s', tm') /\
    currentKey s' = currentKey s /\
    transactions tm' !! currentKey s = None /\
    timeouts tm' !! currentKey s = None /\
    forall k, k <> currentKey s ->
      transactions tm' !! k = transactions tm !! k /\
      timeouts tm' !! k = timeouts tm !! k.
Proof.
  intros Hk Hread Hrow Hsame. unfold Data. rewrite Hk, Hread, Hrow.
  fold (finalKey_of s msg). rewrite Hsame. cbn [transactions timeouts].
  rewrite lookup_delete_eq. cbn [processEmailContent].
  eexists _, _. split; [reflexivity|]. cbn [currentKey transactions timeouts].
  repeat split; try apply lookup_delete_eq.
  - rewrite lookup_delete_ne, lookup_insert_ne by congruence. reflexivity.
  - rewrite lookup_delete_ne, lookup_insert_ne by congruence. reflexivity.
Qed.

(** X9.  [Data] replaces the sender of the row by the first address of the
    From header when the header parses to at least one address, and
    otherwise keeps the sender the row held before the call: the envelope
    sender of MAIL, or the address an earlier DATA took from its From
    header. *)
Theorem Data_sender_from_header (s : Session) (tm : TransactionManager) (bytes : string)
    (msg : Entity) (trans : EmailTransaction) (now : Z) :
  is_empty (currentKey s) = false ->
  message_Read bytes = Val msg ->
  transactions tm !! currentKey s = Some trans ->
  finalKey_of s msg <> currentKey s ->
  exists t',
    transactions (Data message_Read s tm (ReadAll bytes) now).2 !! finalKey_of s msg = Some t' /\
    from t' = match eFrom msg with
              | Some (a :: _) => a
              | _ => from trans
              end.
Proof.
  intros Hk Hread Hrow Hne.
  destruct (Data_row message_Read s tm bytes msg trans now Hk Hread Hrow Hne)
    as (t' & Ht' & HD).
  exists t'. rewrite HD. cbn [snd transactions]. split; [apply lookup_insert_eq|].
  unfold processEmailContent in Ht'. injection Ht' as <-.
  assert (Hfrom : forall l e, from (foldl addRecipient e l) = from e).
  { induction l as [|r l IH]; intros e; simpl; [reflexivity|].
    rewrite IH. unfold addRecipient. destruct (existsb _ (to e)); reflexivity. }
  unfold appendData. cbn [from].
  destruct (eTo msg) as [addrs|]; rewrite ?Hfrom;
    destruct (eFrom msg) as [[|a rest]|]; reflexivity.
Qed.

End SessionMore.

Section SessionEnd.

Context {fold_fns : Folding}.

Variable message_Read : string -> result Entity.
Variable mail_CreateReader : string -> result Reader.
Variable token_endpoint : nat -> result string.
Variable send_endpoint : nat -> string -> string -> GraphMessage -> result (Z * string).

Local Abbreviation step := (step message_Read mail_CreateReader token_endpoint send_endpoint).
Local Abbreviation run := (run message_Read mail_CreateReader token_endpoint send_endpoint).

(** X10.  When finalization succeeds, [Logout] returns nil and removes the
    row and the timestamp of the session's key and nothing else.  The
    session keeps its key: a second [Logout] returns nil without calling the
    delivery client, and RCPT answers that the transaction is not found. *)
Theorem Logout_sends_once (s : Session) (tm : TransactionManager) (w w' : World)
    (trans : EmailTransaction) :
  is_empty (currentKey s) = false ->
  transactions tm !! currentKey s = Some trans ->
  processEmail mail_CreateReader token_endpoint send_endpoint trans w = (None, w') ->
  exists tm',
    Logout mail_CreateReader token_endpoint send_endpoint s tm w = (Nil, s, tm', w') /\
    transactions tm' !! currentKey s = None /\
    timeouts tm' !! currentKey s = None /\
    (forall k, k <> currentKey s ->
       transactions tm' !! k = transactions tm !! k /\
       timeouts tm' !! k = timeouts tm !! k) /\
    Logout mail_CreateReader token_endpoint send_endpoint s tm' w' = (Nil, s, tm', w') /\
    (forall rcpt now, Rcpt s tm' rcpt now = (Err "transaction not found", s, tm')).
Proof.
  intros Hk Hrow Hsend. eexists. split.
  { unfold Logout. rewrite Hk, Hrow, Hsend. reflexivity. }
  cbn [transactions timeouts].
  assert (Hgone : delete (currentKey s) (transactions tm) !! currentKey s = None)
    by apply lookup_delete_eq.
  split; [exact Hgone|]. split; [apply lookup_delete_eq|]. split; [|split].
  - intros k Hne. split; apply lookup_delete_ne; congruence.
  - unfold Logout. rewrite Hk. cbn [transactions]. rewrite Hgone. reflexivity.
  - intros rcpt now. unfold Rcpt. rewrite Hk. cbn [transactions]. rewrite Hgone. reflexivity.
Qed.

Lemma step_keeps_other_sessions (c : Conn) (cmd : Command) :
  session_keyed (session c) ->
  session_keyed (session (step c cmd).2) /\
  sessionID (session (step c cmd).2) = sessionID (session c) /\
  forall k, HasPrefix k (sessionID (session c) +:+ ":") = false ->
    transactions (store (step c cmd).2) !! k = transactions (store c) !! k /\
    timeouts (store (step c cmd).2) !! k = timeouts (store c) !! k.
Proof.
  intros Hkeyed. destruct c as [s tm w]. cbn [session store] in *.
  assert (Hcur : is_empty (currentKey s) = false ->
            forall k, HasPrefix k (sessionID s +:+ ":") = false -> currentKey s <> k).
  { intros Hk k Hpre Heq. destruct Hkeyed as [H|H]; [congruence|].
    rewrite Heq in H. congruence. }
  destruct cmd as [f t now|rcpt now|r now| |]; cbn [step Mail fst snd session store world].
  - cbn [sessionID currentKey transactions timeouts]. split; [|split; [reflexivity|]].
    + right. apply HasPrefix_key.
    + intros k Hpre.
      assert (sessionID s +:+ ":" +:+ f +:+ ":" +:+ format_int t <> k).
      { intros <-. rewrite HasPrefix_key in Hpre. discriminate. }
      split; apply lookup_insert_ne; assumption.
  - unfold Rcpt. destruct (is_empty (currentKey s)) eqn:Hk; [cbn; auto|].
    destruct (transactions tm !! currentKey s); cbn [fst snd session store]; [|auto].
    split; [exact Hkeyed|]. split; [reflexivity|].
    intros k Hpre. cbn [transactions timeouts].
    split; apply lookup_insert_ne; auto.
  - unfold Data. destruct (is_empty (currentKey s)) eqn:Hk; [cbn; auto|].
    destruct r as [bytes|e]; [|cbn; auto].
    destruct (message_Read bytes) as [msg|e]; [|cbn; auto].
    fold (finalKey_of s msg).
    assert (Hfinal : forall k, HasPrefix k (sessionID s +:+ ":") = false ->
                               finalKey_of s msg <> k).
    { intros k Hpre <-. unfold finalKey_of in Hpre. rewrite HasPrefix_key in Hpre.
      discriminate. }
    destruct (transactions tm !! currentKey s) as [trans|] eqn:Hrow.
    + cbn [transactions timeouts].
      destruct (processEmailContent _ _ _) as [t'|];
        cbn [fst snd session store sessionID currentKey transactions timeouts];
        (split; [right; apply HasPrefix_key|]); (split; [reflexivity|]);
        intros k Hpre; rewrite ?lookup_insert_ne by auto;
        rewrite !lookup_delete_ne by auto; rewrite !lookup_insert_ne by auto; auto.
    + destruct (processEmailContent _ _ _) as [t'|];
        cbn [fst snd session store sessionID currentKey transactions timeouts];
        (split; [exact Hkeyed|]); (split; [reflexivity|]);
        intros k Hpre; rewrite ?lookup_insert_ne by auto; auto.
  - unfold Reset. cbn [fst snd session store sessionID currentKey].
    split; [left; reflexivity|]. split; [reflexivity|].
    intros k Hpre. destruct (is_empty (currentKey s)) eqn:Hk; [auto|].
    cbn [transactions timeouts]. split; apply lookup_delete_ne; auto.
  - unfold Logout. destruct (is_empty (currentKey s)) eqn:Hk; [cbn; auto|].
    destruct (transactions tm !! currentKey s) as [trans|]; [|cbn; auto].
    destruct (processEmail _ _ _ trans w) as [[err|] w1];
      cbn [fst snd session store transactions timeouts]; [auto|].
    split; [exact Hkeyed|]. split; [reflexivity|].
    intros k Hpre. split; apply lookup_delete_ne; auto.
Qed.

(** X11.  A connection only ever touches keys that start with its own
    session identifier and a colon: whatever commands it runs, the row and
    the timestamp under any other key are as before, and the key the session
    holds is empty or one of its own. *)
Theorem run_keeps_other_sessions (cmds : list Command) (c : Conn) :
  session_keyed (session c) ->
  session_keyed (session (run c cmds).2) /\
  forall k, HasPrefix k (sessionID (session c) +:+ ":") = false ->
    transactions (store (run c cmds).2) !! k = transactions (store c) !! k /\
    timeouts (store (run c cmds).2) !! k = timeouts (store c) !! k.
Proof.
  revert c. induction cmds as [|cmd cmds IH]; intros c Hkeyed.
  - simpl. auto.
  - rewrite run_cons. cbn [snd].
    destruct (step_keeps_other_sessions c cmd Hkeyed) as (Hk1 & Hid & Hstep).
    destruct (IH _ Hk1) as [Hk2 Hrun]. split; [exact Hk2|].
    intros k Hpre. rewrite Hid in Hrun.
    destruct (Hrun k Hpre) as [-> ->]. apply Hstep, Hpre.
Qed.

(** X12.  Two MAIL commands of one session with the same sender at
    different clock readings get different keys, so the second leaves the
    row of the first where it is. *)
Theorem Mail_timestamps_separate_rows (s : Session) (tm : TransactionManager)
    (f : string) (t1 t2 now1 now2 : Z) :
  t1 <> t2 ->
  let m1 := Mail s tm f t1 now1 in
  let m2 := Mail m1.1.2 m1.2 f t2 now2 in
  currentKey m1.1.2 <> currentKey m2.1.2 /\
  transactions m2.2 !! currentKey m1.1.2 = Some (newTransaction f) /\
  transactions m2.2 !! currentKey m2.1.2 = Some (newTransaction f).
Proof.
  intros Hne m1 m2. unfold m2, m1, Mail. cbn [fst snd currentKey sessionID transactions].
  assert (Hkeys : sessionID s +:+ ":" +:+ f +:+ ":" +:+ format_int t1 <>
                  sessionID s +:+ ":" +:+ f +:+ ":" +:+ format_int t2).
  { intros H. apply Hne, format_int_inj.
    do 4 apply append_cancel in H. exact H. }
  split; [exact Hkeys|]. split.
  - rewrite lookup_insert_ne by congruence. apply lookup_insert_eq.
  - apply lookup_insert_eq.
Qed.

End SessionEnd.

(** ** More on the delivery client *)

Section DeliveryMore.

Variable mail_CreateReader : string -> result Reader.
Variable token_endpoint : nat -> result string.
Variable send_endpoint : nat -> string -> string -> GraphMessage -> result (Z * string).

(** One call of [doSendMail]: one more call counted, no sleep, and at most
    one request, for the sender's URL and the payload. *)
Lemma doSendMail_effect (sender : string) (payload : GraphMessage) (w : World) :
  let r := doSendMail token_endpoint send_endpoint sender payload w in
  calls r.2 = S (calls w) /\ sleeps r.2 = sleeps w /\
  (posts r.2 = posts w \/ posts r.2 = posts w ++ [(sendURL sender, payload)]).
Proof.
  unfold doSendMail. fold (sendURL sender).
  destruct (token_endpoint (calls w)) as [token|e]; [|simpl; auto].
  destruct (send_endpoint _ _ _ _) as [[status body]|e]; [|simpl; auto].
  destruct (status =? 202)%Z; simpl; auto.
Qed.

(** [doSendMail] returns nil only for a token and a 202. *)
Lemma doSendMail_nil (sender : string) (payload : GraphMessage) (w w' : World) :
  doSendMail token_endpoint send_endpoint sender payload w = (None, w') ->
  exists token body,
    token_endpoint (calls w) = Val token /\
    send_endpoint (calls w) (sendURL sender) token payload = Val (202%Z, body).
Proof.
  unfold doSendMail. fold (sendURL sender).
  destruct (token_endpoint (calls w)) as [token|e] eqn:Ht; [|discriminate].
  destruct (send_endpoint _ _ _ _) as [[status body]|e] eqn:Hs; [|discriminate].
  destruct (status =? 202)%Z eqn:E; [|discriminate].
  apply Z.eqb_eq in E. subst status. intros _. exists token, body. auto.
Qed.

Lemma sendMail_loop_nil (remaining : nat) (attempt : Z) (lastErr sender : string)
    (payload : GraphMessage) (w w' : World) :
  sendMail_loop token_endpoint send_endpoint remaining attempt lastErr sender payload w
    = (None, w') ->
  exists n token body,
    calls w <= n < calls w' /\
    token_endpoint n = Val token /\
    send_endpoint n (sendURL sender) token payload = Val (202%Z, body).
Proof.
  revert attempt lastErr w. induction remaining as [|m IH]; intros attempt lastErr w;
    cbn [sendMail_loop]; [discriminate|].
  set (w1 := if (0 <? attempt)%Z then _ else w).
  assert (Hw1 : calls w1 = calls w) by (unfold w1; destruct (0 <? attempt)%Z; reflexivity).
  pose proof (doSendMail_effect sender payload w1) as (Hc & _ & _).
  destruct (doSendMail _ _ sender payload w1) as [[err|] w2] eqn:Hd; cbn [snd] in Hc.
  - destruct (Contains err "MailboxInfoStale"); cbn [negb]; [|discriminate].
    intros H. destruct (IH _ _ _ H) as (n & token & body & Hn & Ht & Hs).
    exists n, token, body. repeat split; try assumption; lia.
  - intros [= <-]. destruct (doSendMail_nil _ _ _ _ Hd) as (token & body & Ht & Hs).
    exists (calls w1), token, body. repeat split; try assumption; lia.
Qed.

Lemma sendMail_loop_posts (remaining : nat) (attempt : Z) (lastErr sender : string)
    (payload : GraphMessage) (w : World) :
  let r := sendMail_loop token_endpoint send_endpoint remaining attempt lastErr
             sender payload w in
  exists extra,
    posts r.2 = posts w ++ extra /\
    Forall (eq (sendURL sender, payload)) extra /\
    length extra + calls w <= calls r.2.
Proof.
  revert attempt lastErr w. induction remaining as [|m IH]; intros attempt lastErr w;
    cbn [sendMail_loop].
  - exists []. cbn [snd]. rewrite app_nil_r. repeat split; [constructor|simpl; lia].
  - set (w1 := if (0 <? attempt)%Z then _ else w).
    assert (Hw1 : calls w1 = calls w /\ posts w1 = posts w)
      by (unfold w1; destruct (0 <? attempt)%Z; auto).
    destruct Hw1 as [Hc1 Hp1].
    pose proof (doSendMail_effect sender payload w1) as (Hc & _ & Hp).
    destruct (doSendMail _ _ sender payload w1) as [[err|] w2]; cbn [snd] in Hc, Hp.
    + destruct (Contains err "MailboxInfoStale"); cbn [negb snd].
      * destruct (IH (attempt + 1)%Z err w2) as (extra & He & Hall & Hlen).
        cbv zeta in He, Hall, Hlen. rewrite He.
        destruct Hp as [Hp|Hp]; rewrite Hp, Hp1.
        -- exists extra. repeat split; [assumption|lia].
        -- exists ((sendURL sender, payload) :: extra). rewrite <- app_assoc.
           repeat split; [constructor; auto|simpl; lia].
      * destruct Hp as [Hp|Hp]; rewrite Hp, Hp1.
        -- exists []. rewrite app_nil_r. repeat split; [constructor|simpl; lia].
        -- eexists. repeat split; [repeat constructor|simpl; lia].
    + cbn [snd]. destruct Hp as [Hp|Hp]; rewrite Hp, Hp1.
      * exists []. rewrite app_nil_r. repeat split; [constructor|simpl; lia].
      * eexists. repeat split; [repeat constructor|simpl; lia].
Qed.

(** X13.  A failure without the transient marker ends [sendMail] after that
    one attempt: the error is returned as it is and nothing is slept. *)
Theorem sendMail_permanent_once (sender : string) (payload : GraphMessage)
    (w w' : World) (err : string) :
  doSendMail token_endpoint send_endpoint sender payload w = (Some err, w') ->
  Contains err "MailboxInfoStale" = false ->
  sendMail token_endpoint send_endpoint sender payload w = (Some err, w') /\
  calls w' = S (calls w) /\ sleeps w' = sleeps w.
Proof.
  intros Hd Hc. split; [apply sendMail_permanent; assumption|].
  pose proof (doSendMail_effect sender payload w) as (H1 & H2 & _).
  rewrite Hd in H1, H2. auto.
Qed.

(** X14.  Three transient failures in a row: [sendMail] gives up with the
    aggregate error that names three retries and the last cause, after
    sleeping 2 s and 4 s. *)
Theorem sendMail_gives_up (sender : string) (payload : GraphMessage)
    (w0 w1 w2 w3 : World) (e1 e2 e3 : string) :
  let slept w d := mkWorld (calls w) (sleeps w ++ [d]) (posts w) in
  doSendMail token_endpoint send_endpoint sender payload w0 = (Some e1, w1) ->
  Contains e1 "MailboxInfoStale" = true ->
  doSendMail token_endpoint send_endpoint sender payload (slept w1 (2 * time_Second)%Z)
    = (Some e2, w2) ->
  Contains e2 "MailboxInfoStale" = true ->
  doSendMail token_endpoint send_endpoint sender payload (slept w2 (4 * time_Second)%Z)
    = (Some e3, w3) ->
  Contains e3 "MailboxInfoStale" = true ->
  sendMail token_endpoint send_endpoint sender payload w0 =
  (Some ("failed after 3 retries. Last error: " +:+ e3), w3).
Proof.
  intros slept H1 C1 H2 C2 H3 C3. unfold sendMail, maxRetries, slept in *.
  cbn [sendMail_loop]. change (0 <? 0)%Z with false. cbv iota.
  rewrite H1, C1. cbn [negb].
  change (0 <? 0 + 1)%Z with true. cbv iota.
  change (time_Second * Z.shiftl 1 (0 + 1))%Z with (2 * time_Second)%Z.
  rewrite H2, C2. cbn [negb].
  change (0 <? 0 + 1 + 1)%Z with true. cbv iota.
  change (time_Second * Z.shiftl 1 (0 + 1 + 1))%Z with (4 * time_Second)%Z.
  rewrite H3, C3. reflexivity.
Qed.

(** X15.  Whatever the endpoints answer, [sendMail] makes between one and
    three attempts and sleeps once before every attempt but the first: the
    sleeps are the first attempts-minus-one of 2 s and 4 s. *)
Theorem sendMail_accounting (sender : string) (payload : GraphMessage) (w : World) :
  let r := sendMail token_endpoint send_endpoint sender payload w in
  exists n,
    1 <= n <= 3 /\
    calls r.2 = calls w + n /\
    sleeps r.2 = sleeps w ++ take (n - 1) backoffs.
Proof.
  unfold sendMail, maxRetries, backoffs. cbn [sendMail_loop].
  change (0 <? 0)%Z with false. cbv iota.
  pose proof (doSendMail_effect sender payload w) as (Hc1 & Hs1 & _).
  destruct (doSendMail _ _ sender payload w) as [[e1|] w1]; cbn [snd] in *;
    [|exists 1; rewrite Hc1, Hs1, app_nil_r; repeat split; lia].
  destruct (Contains e1 "MailboxInfoStale"); cbn [negb snd];
    [|exists 1; rewrite Hc1, Hs1, app_nil_r; repeat split; lia].
  change (0 <? 0 + 1)%Z with true. cbv iota.
  change (time_Second * Z.shiftl 1 (0 + 1))%Z with (2 * time_Second)%Z.
  match goal with |- context [doSendMail _ _ sender payload ?x] =>
    pose proof (doSendMail_effect sender payload x) as (Hc2 & Hs2 & _);
    destruct (doSendMail _ _ sender payload x) as [[e2|] w2] end;
    cbn [snd calls sleeps] in *;
    [|exists 2; rewrite Hc2, Hs2, Hc1, Hs1; repeat split; lia].
  destruct (Contains e2 "MailboxInfoStale"); cbn [negb snd];
    [|exists 2; rewrite Hc2, Hs2, Hc1, Hs1; repeat split; lia].
  change (0 <? 0 + 1 + 1)%Z with true. cbv iota.
  change (time_Second * Z.shiftl 1 (0 + 1 + 1))%Z with (4 * time_Second)%Z.
  match goal with |- context [doSendMail _ _ sender payload ?x] =>
    pose proof (doSendMail_effect sender payload x) as (Hc3 & Hs3 & _);
    destruct (doSendMail _ _ sender payload x) as [[e3|] w3] end;
    cbn [snd calls sleeps] in *.
  - destruct (Contains e3 "MailboxInfoStale"); cbn [negb snd];
      exists 3; rewrite Hc3, Hs3, Hc2, Hs2, Hc1, Hs1, <- app_assoc; repeat split; lia.
  - exists 3. rewrite Hc3, Hs3, Hc2, Hs2, Hc1, Hs1, <- app_assoc. repeat split; lia.
Qed.

End DeliveryMore.

(** ** More on the content transformer *)

(** Where the reference does not occur, [ReplaceAll] changes nothing. *)
Lemma ReplaceAll_absent (s old new : string) :
  is_empty old = false -> Contains s old = false -> ReplaceAll s old new = s.
Proof.
  intros Hold. destruct old as [|o old]; [discriminate|]. unfold ReplaceAll.
  induction s as [|c s IH]; [reflexivity|].
  cbn [Contains replace_from]. intros H. apply orb_false_iff in H as [Hp Hc].
  rewrite Hp, (IH Hc). reflexivity.
Qed.

Lemma process_part_atts (b : Bodies) (part : Part) :
  atts (process_part b part) = atts b ++ attachment_of (Val part).
Proof.
  destruct part as [contentType contentID body|filename contentType body];
    [|reflexivity].
  cbn [attachment_of]. rewrite app_nil_r. unfold process_part.
  destruct (String.eqb contentType "text/plain"); [destruct (is_empty (textBody b)); reflexivity|].
  destruct (String.eqb contentType "text/html"); [destruct (is_empty (htmlBody b)); reflexivity|].
  destruct (existsb _ inline_images); [|reflexivity].
  destruct (is_empty (htmlBody b)); reflexivity.
Qed.

Lemma process_parts_atts (parts : list (result Part)) (b b' : Bodies) :
  process_parts parts b = Val b' ->
  atts b' = atts b ++ flat_map attachment_of parts.
Proof.
  revert b. induction parts as [|[part|e] parts IH]; intros b H; simpl in H.
  - injection H as <-. simpl. rewrite app_nil_r. reflexivity.
  - rewrite (IH _ H), process_part_atts. cbn [flat_map]. rewrite app_assoc. reflexivity.
  - discriminate.
Qed.

Lemma process_part_textBody (b : Bodies) (part : Part) :
  textBody (process_part b part) =
  if is_empty (textBody b) then first_text [Val part] else textBody b.
Proof.
  destruct part as [contentType contentID body|filename contentType body].
  - unfold process_part, first_text. cbn [find is_text_body].
    destruct (String.eqb contentType "text/plain"); cbn [andb].
    + destruct (is_empty (textBody b)) eqn:Hb; [|reflexivity].
      destruct body; reflexivity.
    + destruct (is_empty (textBody b)) eqn:Hb.
      * apply is_empty_true in Hb.
        destruct (String.eqb contentType "text/html");
          [destruct (is_empty (htmlBody b)); exact Hb|].
        destruct (existsb _ inline_images); [|exact Hb].
        destruct (is_empty (htmlBody b)); exact Hb.
      * destruct (String.eqb contentType "text/html");
          [destruct (is_empty (htmlBody b)); reflexivity|].
        destruct (existsb _ inline_images); [|reflexivity].
        destruct (is_empty (htmlBody b)); reflexivity.
  - cbn. destruct (is_empty (textBody b)) eqn:Hb; [|reflexivity].
    apply is_empty_true, Hb.
Qed.

Lemma process_parts_textBody (parts : list (result Part)) (b b' : Bodies) :
  process_parts parts b = Val b' ->
  textBody b' = if is_empty (textBody b) then first_text parts else textBody b.
Proof.
  revert b. induction parts as [|[part|e] parts IH]; intros b H; simpl in H.
  - injection H as <-. unfold first_text. simpl.
    destruct (is_empty (textBody b)) eqn:Hb; [apply is_empty_true, Hb|reflexivity].
  - rewrite (IH _ H), process_part_textBody.
    destruct (is_empty (textBody b)) eqn:Hb; [|rewrite Hb; reflexivity].
    unfold first_text. cbn [find].
    destruct (is_text_body (Val part)) eqn:Hp.
    + destruct part as [contentType contentID body|]; [|discriminate].
      cbn [is_text_body] in Hp. apply andb_true_iff in Hp as [_ Hp].
      apply negb_true_iff in Hp. rewrite Hp. reflexivity.
    + reflexivity.
  - discriminate.
Qed.

(** The walk stops at the first failure of [NextPart]. *)
Lemma process_parts_failure (ps qs : list (result Part)) (e : string) (b : Bodies) :
  all_read ps = true ->
  process_parts (ps ++ Fail e :: qs) b = Fail ("failed to read MIME part: " +:+ e).
Proof.
  intros H. destruct (process_parts_total ps b H) as [b' Hb'].
  rewrite (process_parts_app _ _ _ _ Hb'). reflexivity.
Qed.

Section TransformMore.

Context {fold_fns : Folding}.

Variable mail_CreateReader : string -> result Reader.
Variable token_endpoint : nat -> result string.
Variable send_endpoint : nat -> string -> string -> GraphMessage -> result (Z * string).

(** The payload in terms of the reader and the walk. *)
Lemma processEmail_message_inv (trans : EmailTransaction) (rd : Reader) (gm : GraphMessage) :
  mail_CreateReader (emailContent trans) = Val rd ->
  processEmail_message mail_CreateReader trans = Val gm ->
  exists b body kind,
    process_parts (rParts rd) (mkBodies EmptyString EmptyString []) = Val b /\
    is_empty body = false /\
    (kind = "HTML" /\ body = htmlBody b \/
     kind = "Text" /\ body = textBody b /\ is_empty (htmlBody b) = true) /\
    gm = buildGraphMessage
           (if is_empty (rSubject rd) then "No Subject" else rSubject rd)
           kind body (addresses (rTo rd)) (addresses (rCc rd))
           (classify_bcc rd (to trans)) (atts b).
Proof.
  intros Hrd Hgm.
  destruct (processEmail_message_Val _ _ _ Hgm) as (Hg & rd' & b & Hrd' & Hw).
  assert (rd' = rd) by congruence. subst rd'.
  rewrite (processEmail_message_walked _ _ _ _ Hg Hrd Hw) in Hgm. cbv zeta in Hgm.
  exists b. destruct (is_empty (htmlBody b)) eqn:Hh; cbn [negb] in Hgm.
  - destruct (is_empty (textBody b)) eqn:Ht; [discriminate|]. injection Hgm as <-.
    exists (textBody b), "Text".
    split; [exact Hw|]. split; [exact Ht|]. split; [right; auto|reflexivity].
  - injection Hgm as <-. exists (htmlBody b), "HTML".
    split; [exact Hw|]. split; [exact Hh|]. split; [left; auto|reflexivity].
Qed.

(** X16.  In every payload the attachment array holds one entry per
    attachment part of the message, in document order, each with the file
    attachment discriminator, the name, the media type and the base64 of the
    bytes; inline parts, images included, never add an entry. *)
Theorem payload_attachments_in_order (trans : EmailTransaction) (rd : Reader)
    (gm : GraphMessage) :
  mail_CreateReader (emailContent trans) = Val rd ->
  processEmail_message mail_CreateReader trans = Val gm ->
  attachments gm = flat_map attachment_of (rParts rd).
Proof.
  intros Hrd Hgm.
  destruct (processEmail_message_inv _ _ _ Hrd Hgm) as (b & body & kind & Hw & _ & _ & ->).
  cbn [attachments buildGraphMessage]. rewrite (process_parts_atts _ _ _ Hw). reflexivity.
Qed.

(** X17.  When no inline text/html part has a body, the body of the payload
    is the body of the first inline text/plain part whose body is not empty;
    later text parts are ignored. *)
Theorem payload_first_text_wins (trans : EmailTransaction) (rd : Reader)
    (gm : GraphMessage) :
  mail_CreateReader (emailContent trans) = Val rd ->
  processEmail_message mail_CreateReader trans = Val gm ->
  existsb is_html_body (rParts rd) = false ->
  bodyContentType gm = "Text" /\ bodyContent gm = first_text (rParts rd).
Proof.
  intros Hrd Hgm Hnone.
  destruct (processEmail_message_inv _ _ _ Hrd Hgm)
    as (b & body & kind & Hw & Hbody & Hkind & ->).
  destruct (process_parts_bodies _ _ _ Hw) as [Hh _]. rewrite Hnone in Hh. cbn in Hh.
  cbn [bodyContentType bodyContent buildGraphMessage].
  destruct Hkind as [[-> ->]|(-> & -> & _)]; [congruence|].
  split; [reflexivity|]. rewrite (process_parts_textBody _ _ _ Hw). reflexivity.
Qed.

(** X18.  An inline image part never changes the plain-text body or the
    attachments, and when the HTML body captured so far does not contain
    cid:<id> for its Content-ID it changes nothing at all: the image is not
    part of the payload. *)
Theorem image_part_unreferenced (b : Bodies) (contentType contentID img : string) :
  existsb (String.eqb contentType) inline_images = true ->
  let b' := process_part b (InlinePart contentType contentID img) in
  textBody b' = textBody b /\ atts b' = atts b /\
  (Contains (htmlBody b) ("cid:" +:+ Trim contentID "<>") = false -> b' = b).
Proof.
  intros Himg b'. unfold b', process_part.
  destruct (image_not_text _ Himg) as [-> ->]. rewrite Himg.
  destruct (is_empty (htmlBody b)); cbn [negb textBody atts]; [auto|].
  repeat split. intros Habs.
  rewrite (ReplaceAll_absent (htmlBody b) ("cid:" +:+ Trim contentID "<>") _ eq_refl Habs).
  destruct b. reflexivity.
Qed.

(** X19.  Every payload carries the addresses of the To and Cc headers in
    their order, a subject that is the header's or the placeholder when the
    header is empty, a body that is not empty, and saveToSentItems false. *)
Theorem payload_headers (trans : EmailTransaction) (rd : Reader) (gm : GraphMessage) :
  mail_CreateReader (emailContent trans) = Val rd ->
  processEmail_message mail_CreateReader trans = Val gm ->
  address <$> toRecipients gm = addresses (rTo rd) /\
  address <$> ccRecipients gm = addresses (rCc rd) /\
  subject gm = (if is_empty (rSubject rd) then "No Subject" else rSubject rd) /\
  is_empty (subject gm) = false /\
  is_empty (bodyContent gm) = false /\
  saveToSentItems gm = false.
Proof.
  intros Hrd Hgm.
  destruct (processEmail_message_inv _ _ _ Hrd Hgm)
    as (b & body & kind & Hw & Hbody & _ & ->).
  cbn [toRecipients ccRecipients subject bodyContent saveToSentItems buildGraphMessage].
  unfold buildRecipients. rewrite <- !list_fmap_compose.
  assert (Hid : forall l : list string, (address ∘ mkRecipient) <$> l = l).
  { intros l. induction l as [|x l IH]; [reflexivity|]. cbn. rewrite IH. reflexivity. }
  rewrite !Hid. repeat split; [|exact Hbody].
  destruct (is_empty (rSubject rd)) eqn:E; [reflexivity|exact E].
Qed.

(** X20.  When [NextPart] fails, [processEmail] returns that failure and
    never calls the delivery client, whatever bodies the parts before it
    gave and whatever parts would follow. *)
Theorem processEmail_part_failure_aborts (trans : EmailTransaction) (rd : Reader)
    (ps qs : list (result Part)) (e : string) (w : World) :
  missing_fields trans = false ->
  mail_CreateReader (emailContent trans) = Val rd ->
  rParts rd = ps ++ Fail e :: qs ->
  all_read ps = true ->
  processEmail mail_CreateReader token_endpoint send_endpoint trans w =
  (Some ("failed to read MIME part: " +:+ e), w).
Proof.
  intros Hg Hrd Hparts Hread. apply processEmail_no_message.
  unfold processEmail_message. rewrite Hg, Hrd, Hparts, process_parts_failure by exact Hread.
  reflexivity.
Qed.

(** X21.  [processEmail] returns nil only if some call of the send endpoint
    made during it, with a token of the identity endpoint, for the URL of the
    row's sender and the transformed message, was answered with 202. *)
Theorem processEmail_nil_means_accepted (trans : EmailTransaction) (w w' : World) :
  processEmail mail_CreateReader token_endpoint send_endpoint trans w = (None, w') ->
  exists gm n token body,
    processEmail_message mail_CreateReader trans = Val gm /\
    calls w <= n < calls w' /\
    token_endpoint n = Val token /\
    send_endpoint n (sendURL (from trans)) token gm = Val (202%Z, body).
Proof.
  unfold processEmail.
  destruct (processEmail_message mail_CreateReader trans) as [gm|e]; [|discriminate].
  destruct (sendMail _ _ (from trans) gm w) as [[err|] w1] eqn:Hsend; [discriminate|].
  intros [= <-]. unfold sendMail in Hsend.
  destruct (sendMail_loop_nil _ _ _ _ _ _ _ _ _ Hsend) as (n & token & body & H).
  exists gm, n, token, body. split; [reflexivity|exact H].
Qed.

(** X22.  Every request [processEmail] builds is for the URL of the row's
    sender and carries the transformed message; there are at most three, and
    none when the transformation failed. *)
Theorem processEmail_requests (trans : EmailTransaction) (w : World) :
  let r := processEmail mail_CreateReader token_endpoint send_endpoint trans w in
  exists extra,
    posts r.2 = posts w ++ extra /\
    length extra <= 3 /\
    match processEmail_message mail_CreateReader trans with
    | Val gm => Forall (eq (sendURL (from trans), gm)) extra
    | Fail e => extra = [] /\ r = (Some e, w)
    end.
Proof.
  unfold processEmail.
  destruct (processEmail_message mail_CreateReader trans) as [gm|e].
  - pose proof (sendMail_loop_posts token_endpoint send_endpoint maxRetries 0 "<nil>"
                  (from trans) gm w) as (extra & Hp & Hall & Hlen).
    pose proof (sendMail_attempts token_endpoint send_endpoint (from trans) gm w) as Hb.
    fold (sendMail token_endpoint send_endpoint (from trans) gm w) in Hp, Hlen.
    destruct (sendMail _ _ (from trans) gm w) as [[err|] w1]; cbn [snd] in *;
      exists extra; repeat split; try assumption; lia.
  - exists []. cbn [snd]. rewrite app_nil_r. repeat split. simpl. lia.
Qed.

End TransformMore.

(** ** The further properties applied to concrete stores and messages *)

Section OnStores.

#[local] Existing Instance Scenario.ascii_folding.

Lemma cleanup_removes_exactly_stale_witness :
  transactions (cleanup Scenario.two_ages (6 * time_Minute)) !! "old" = None /\
  transactions (cleanup Scenario.two_ages (6 * time_Minute)) !! "young" =
    Some (newTransaction "b@co").
Proof.
  split.
  - apply (proj1 (cleanup_removes_exactly_stale Scenario.two_ages (6 * time_Minute) "old")
             0%Z); [vm_compute; reflexivity|vm_compute; reflexivity].
  - assert (Hfresh : forall t, timeouts Scenario.two_ages !! "young" = Some t ->
                       (6 * time_Minute - t <= 5 * time_Minute)%Z).
    { intros t Ht. vm_compute in Ht. injection Ht as <-. vm_compute. discriminate. }
    rewrite (proj1 (proj2 (cleanup_removes_exactly_stale Scenario.two_ages
                             (6 * time_Minute) "young") Hfresh)).
    vm_compute. reflexivity.
Defined.

Lemma cleanup_later_absorbs_witness :
  cleanup (cleanup Scenario.two_ages (6 * time_Minute)) (10 * time_Minute) =
  cleanup Scenario.two_ages (10 * time_Minute).
Proof.
  apply (cleanup_later_absorbs Scenario.two_ages (6 * time_Minute) (10 * time_Minute)).
  vm_compute. discriminate.
Defined.

Lemma startCleanupRoutine_stricter_witness :
  transactions (startCleanupRoutine Scenario.two_ages (7 * time_Minute)) !! "young" = None /\
  transactions (cleanup Scenario.two_ages (7 * time_Minute)) !! "young" =
    transactions Scenario.two_ages !! "young".
Proof.
  apply (proj2 (proj2 (startCleanupRoutine_stricter Scenario.two_ages (7 * time_Minute)
                         "young")) (4 * time_Minute)%Z).
  - vm_compute. reflexivity.
  - vm_compute. split; [reflexivity|discriminate].
Defined.

Lemma store_stays_coherent_witness :
  store_coherent
    (store (step Scenario.message_Read Scenario.mail_CreateReader Scenario.token_ok
              Scenario.send_accept Scenario.conn0 (MAIL "a@co" 100 100)).2).
Proof.
  apply (proj1 (store_stays_coherent Scenario.message_Read Scenario.mail_CreateReader
                  Scenario.token_ok Scenario.send_accept Scenario.conn0 eq_refl)).
Defined.

Lemma Reset_discards_current_witness :
  transactions (Reset (session Scenario.mail_rcpt) (store Scenario.mail_rcpt)).2
    !! "s1:a@co:100" = None.
Proof.
  apply (proj1 (proj2 (Reset_discards_current Scenario.message_Read
                         (session Scenario.mail_rcpt) (store Scenario.mail_rcpt)))).
  reflexivity.
Defined.

Lemma Mail_Reset_round_trip_witness :
  Reset (Mail (NewSession "s1") Scenario.two_ages "a@co" 100 100).1.2
        (Mail (NewSession "s1") Scenario.two_ages "a@co" 100 100).2 =
  (NewSession "s1", Scenario.two_ages).
Proof.
  apply (Mail_Reset_round_trip (NewSession "s1") Scenario.two_ages "a@co" 100 100);
    vm_compute; reflexivity.
Defined.

Lemma Rcpt_duplicate_refreshes_witness :
  Rcpt (session Scenario.mail_rcpt) (store Scenario.mail_rcpt) "B@CO" 900 =
  (Nil, session Scenario.mail_rcpt,
   mkTM (transactions (store Scenario.mail_rcpt))
        (<[currentKey (session Scenario.mail_rcpt) := 900%Z]>
           (timeouts (store Scenario.mail_rcpt)))).
Proof.
  apply (Rcpt_duplicate_refreshes (session Scenario.mail_rcpt) (store Scenario.mail_rcpt)
           (mkTrans "a@co" ["b@co"] [] [] []) "B@CO" 900);
    vm_compute; reflexivity.
Defined.

Lemma Data_same_key_drops_row_witness :
  exists s' tm',
    Data Scenario.message_Read (session Scenario.ready) (store Scenario.ready)
      (ReadAll Scenario.raw_hi) 400 = (Panic "nil pointer dereference", s', tm') /\
    transactions tm' !! "s1:a@co:Hi" = None.
Proof.
  destruct (Data_same_key_drops_row Scenario.message_Read (session Scenario.ready)
              (store Scenario.ready) Scenario.raw_hi
              (mkEntity "Hi" (Some []) (Some ["b@co"])) Scenario.ready_row 400)
    as (s' & tm' & HD & _ & Hrow & _); try (vm_compute; reflexivity).
  exists s', tm'. split; [exact HD|exact Hrow].
Defined.

Lemma Data_sender_from_header_witness :
  exists t',
    transactions (Data Scenario.read_from (session Scenario.mail_rcpt)
                    (store Scenario.mail_rcpt) (ReadAll Scenario.raw_from) 300).2
      !! "s1:a@co:Hi" = Some t' /\
    from t' = "boss@co".
Proof.
  apply (Data_sender_from_header Scenario.read_from (session Scenario.mail_rcpt)
           (store Scenario.mail_rcpt) Scenario.raw_from
           (mkEntity "Hi" (Some ["boss@co"]) (Some ["b@co"]))
           (mkTrans "a@co" ["b@co"] [] [] []) 300);
    vm_compute; (reflexivity || discriminate).
Defined.

Lemma Logout_sends_once_witness :
  exists tm',
    Logout Scenario.mail_CreateReader Scenario.token_ok Scenario.send_accept
      (session Scenario.ready) (store Scenario.ready) World0
      = (Nil, session Scenario.ready, tm',
         mkWorld 1 [] [(sendURL "a@co",
                        buildGraphMessage "Hi" "Text" ("hello" +:+ Scenario.crlf)
                          ["b@co"] [] [] [])]) /\
    transactions tm' !! "s1:a@co:Hi" = None.
Proof.
  destruct (Logout_sends_once Scenario.mail_CreateReader Scenario.token_ok
              Scenario.send_accept (session Scenario.ready) (store Scenario.ready) World0
              (mkWorld 1 [] [(sendURL "a@co",
                              buildGraphMessage "Hi" "Text" ("hello" +:+ Scenario.crlf)
                                ["b@co"] [] [] [])])
              Scenario.ready_row)
    as (tm' & HL & Hrow & _); try (vm_compute; reflexivity).
  exists tm'. split; [exact HL|exact Hrow].
Defined.

Lemma run_keeps_other_sessions_witness :
  transactions
    (store (run Scenario.message_Read Scenario.mail_CreateReader Scenario.token_ok
              Scenario.send_accept Scenario.among_others
              [MAIL "a@co" 100 100; RCPT "b@co" 200; DATA (ReadAll Scenario.raw_hi) 300;
               QUIT]).2) !! "old" =
  transactions Scenario.two_ages !! "old".
Proof.
  apply (proj2 (run_keeps_other_sessions Scenario.message_Read Scenario.mail_CreateReader
                  Scenario.token_ok Scenario.send_accept
                  [MAIL "a@co" 100 100; RCPT "b@co" 200; DATA (ReadAll Scenario.raw_hi) 300;
                   QUIT]
                  Scenario.among_others (or_introl eq_refl)) "old" eq_refl).
Defined.

Lemma Mail_timestamps_separate_rows_witness :
  let m1 := Mail (NewSession "s1") NewTransactionManager "a@co" 100 100 in
  let m2 := Mail m1.1.2 m1.2 "a@co" 200 200 in
  currentKey m1.1.2 <> currentKey m2.1.2 /\
  transactions m2.2 !! currentKey m1.1.2 = Some (newTransaction "a@co") /\
  transactions m2.2 !! currentKey m2.1.2 = Some (newTransaction "a@co").
Proof.
  apply (Mail_timestamps_separate_rows (NewSession "s1") NewTransactionManager "a@co"
           100 200 100 200).
  discriminate.
Defined.

Lemma sendMail_permanent_once_witness :
  sendMail Scenario.token_ok Scenario.send_reject "a@co" Scenario.note World0 =
    (Some "graph API error: InternalServerError",
     mkWorld 1 [] [(sendURL "a@co", Scenario.note)]) /\
  calls (mkWorld 1 [] [(sendURL "a@co", Scenario.note)]) = 1 /\
  sleeps (mkWorld 1 [] [(sendURL "a@co", Scenario.note)]) = [].
Proof.
  apply (sendMail_permanent_once Scenario.token_ok Scenario.send_reject "a@co"
           Scenario.note World0); vm_compute; reflexivity.
Defined.

Lemma sendMail_gives_up_witness :
  (sendMail Scenario.token_ok Scenario.send_stale "a@co" Scenario.note World0).1 =
  Some "failed after 3 retries. Last error: graph API error: ErrorCode: MailboxInfoStale".
Proof.
  erewrite (sendMail_gives_up Scenario.token_ok Scenario.send_stale "a@co" Scenario.note
              World0); [reflexivity|reflexivity..].
Defined.

Lemma payload_attachments_in_order_witness :
  attachments Scenario.mixed_message =
  [mkAttachment "#microsoft.graph.fileAttachment" "a.csv" "text/csv" "MSwy";
   mkAttachment "#microsoft.graph.fileAttachment" "b.txt" "text/plain" "aGk="].
Proof.
  rewrite (payload_attachments_in_order Scenario.read_mixed Scenario.mixed
             Scenario.mixed_reader Scenario.mixed_message);
    vm_compute; reflexivity.
Defined.

Lemma payload_first_text_wins_witness :
  bodyContentType Scenario.mixed_message = "Text" /\
  bodyContent Scenario.mixed_message = first_text Scenario.mixed_parts.
Proof.
  apply (payload_first_text_wins Scenario.read_mixed Scenario.mixed
           Scenario.mixed_reader Scenario.mixed_message);
    vm_compute; reflexivity.
Defined.

Lemma image_part_unreferenced_witness :
  process_part Scenario.no_picture (InlinePart "image/png" "<img1>" "hi") =
  Scenario.no_picture.
Proof.
  apply (proj2 (proj2 (image_part_unreferenced Scenario.no_picture "image/png" "<img1>"
                         "hi" eq_refl))).
  reflexivity.
Defined.

Lemma payload_headers_witness :
  address <$> toRecipients Scenario.mixed_message = ["b@co"; "c@co"] /\
  address <$> ccRecipients Scenario.mixed_message = ["d@co"] /\
  subject Scenario.mixed_message = "No Subject".
Proof.
  destruct (payload_headers Scenario.read_mixed Scenario.mixed Scenario.mixed_reader
              Scenario.mixed_message) as (H1 & H2 & H3 & _);
    try (vm_compute; reflexivity).
  repeat split; assumption.
Defined.

Lemma processEmail_part_failure_aborts_witness :
  processEmail Scenario.read_truncated Scenario.token_ok Scenario.send_accept
    Scenario.truncated World0 =
  (Some "failed to read MIME part: multipart: NextPart: EOF", World0).
Proof.
  apply (processEmail_part_failure_aborts Scenario.read_truncated Scenario.token_ok
           Scenario.send_accept Scenario.truncated Scenario.truncated_reader
           [Val (InlinePart "text/plain" EmptyString "first")] []
           "multipart: NextPart: EOF" World0); vm_compute; reflexivity.
Defined.

Lemma processEmail_nil_means_accepted_witness :
  exists gm n token body,
    processEmail_message Scenario.mail_CreateReader Scenario.ready_row = Val gm /\
    0 <= n < 1 /\
    Scenario.token_ok n = Val token /\
    Scenario.send_accept n (sendURL "a@co") token gm = Val (202%Z, body).
Proof.
  apply (processEmail_nil_means_accepted Scenario.mail_CreateReader Scenario.token_ok
           Scenario.send_accept Scenario.ready_row World0
           (mkWorld 1 [] [(sendURL "a@co",
                           buildGraphMessage "Hi" "Text" ("hello" +:+ Scenario.crlf)
                             ["b@co"] [] [] [])])).
  vm_compute. reflexivity.
Defined.

End OnStores.
